(** * Toga core widgets: DateInput and Slider

    A shallow embedding of [toga/widgets/dateinput.py] and
    [toga/widgets/slider.py], and the properties of their value / min / max
    normalisation, tick rounding and change notification.

    Python floats are IEEE 754 binary64 numbers: they are modelled by Rocq's
    primitive floats.  The slider code is written over an interface of the
    arithmetic it uses, whose instance is binary64; what holds whatever the
    arithmetic does is proved over the interface. *)

From Stdlib Require Import ZArith Bool List String Ascii Lia.
From Stdlib Require Import Floats.
Import ListNotations.

Local Open Scope Z_scope.

(** ** Exceptions, and computations that read and write a widget *)

Inductive exn : Type :=
| TypeError
| ValueError
| OverflowError
| ZeroDivisionError.

(** A pure expression either raises or yields a value. *)
Definition res (A : Type) : Type := (exn + A)%type.

Definition res_bind {A B : Type} (c : res A) (k : A -> res B) : res B :=
  match c with
  | inl e => inl e
  | inr a => k a
  end.

(** A statement runs from a state; when it raises, the state reached at the
    point of the [raise] is kept, since the caller may catch the exception and
    go on using the widget. *)
Inductive outcome (S A : Type) : Type :=
| Returns (a : A) (s : S)
| Raises (e : exn) (s : S).
Arguments Returns {S A} a s.
Arguments Raises {S A} e s.

Definition M (S A : Type) : Type := S -> outcome S A.

Definition ret {S A : Type} (a : A) : M S A := fun s => Returns a s.

Definition bind {S A B : Type} (c : M S A) (k : A -> M S B) : M S B :=
  fun s =>
    match c s with
    | Returns a s' => k a s'
    | Raises e s' => Raises e s'
    end.

Definition raise {S A : Type} (e : exn) : M S A := fun s => Raises e s.

Definition gets {S A : Type} (f : S -> A) : M S A := fun s => Returns (f s) s.

Definition modify {S : Type} (f : S -> S) : M S unit := fun s => Returns tt (f s).

(** Evaluate a pure expression that may raise, in the current state. *)
Definition eval {S A : Type} (f : S -> res A) : M S A :=
  fun s =>
    match f s with
    | inl e => Raises e s
    | inr a => Returns a s
    end.

Definition final {S A : Type} (o : outcome S A) : S :=
  match o with
  | Returns _ s => s
  | Raises _ s => s
  end.

Declare Scope py_scope.
Delimit Scope py_scope with py.
Notation "x <- c ;; k" := (bind c (fun x => k))
  (at level 61, c at next level, right associativity) : py_scope.
Notation "c ;; k" := (bind c (fun _ => k))
  (at level 61, right associativity) : py_scope.
Notation "'let?' x := c 'in' k" := (res_bind c (fun x => k))
  (at level 10, x name, c at level 100, k at level 200) : py_scope.

(** ** Event handlers

    [wrapped_handler(widget, handler)] turns the handler given by the
    application into a callable: for [None] a callable that does nothing, for
    a handler a callable that invokes it on the widget.  An application
    handler is named by a number, and a widget records the handlers that were
    invoked, the most recent one first. *)

Definition handler_id : Type := nat.

(** Modelled from the spec: [toga.handlers.wrapped_handler], the generic
    event-handler wrapping utility, which is not part of the widget sources. *)
Definition wrapped_handler (handler : option handler_id) : option handler_id :=
  handler.

(** Calling a wrapped handler, given the log of invocations so far. *)
Definition call_handler (h : option handler_id) (log : list handler_id)
  : list handler_id :=
  match h with
  | None => log
  | Some i => i :: log
  end.

(** * DateInput *)

Module DateInput.

Local Open Scope py_scope.

(** [datetime.date]: compared as the triple (year, month, day). *)
Record date : Type := mkdate { year : Z; month : Z; day : Z }.

Definition date_ltb (a b : date) : bool :=
  (year a <? year b)
  || ((year a =? year b)
      && ((month a <? month b)
          || ((month a =? month b) && (day a <? day b)))).

Definition date_gtb (a b : date) : bool := date_ltb b a.

Definition date_eqb (a b : date) : bool :=
  (year a =? year b) && (month a =? month b) && (day a =? day b).

(** [a <= b] for dates. *)
Definition date_leb (a b : date) : bool := negb (date_ltb b a).

Definition is_leap (y : Z) : bool :=
  (y mod 4 =? 0) && (negb (y mod 100 =? 0) || (y mod 400 =? 0)).

Definition days_in_month (y m : Z) : Z :=
  if m =? 2 then (if is_leap y then 29 else 28)
  else if (m =? 4) || (m =? 6) || (m =? 9) || (m =? 11) then 30
  else 31.

(** The dates [datetime.date] can hold: years 1 to 9999. *)
Definition valid_date (d : date) : bool :=
  (1 <=? year d) && (year d <=? 9999)
  && (1 <=? month d) && (month d <=? 12)
  && (1 <=? day d) && (day d <=? days_in_month (year d) (month d)).

Definition MIN_DATE : date := mkdate 1800 1 1.
Definition MAX_DATE : date := mkdate 8999 12 31.

(** The values a caller can assign: [None], a [datetime.datetime] (a date and
    a time of day), a [datetime.date], a [str], or any other object. *)
Inductive pyobj : Type :=
| PyNone
| PyDateTime (d : date) (hour minute second : Z)
| PyDate (d : date)
| PyStr (s : string)
| PyOther.

Definition digit (c : ascii) : option Z :=
  let n := Z.of_nat (nat_of_ascii c) in
  if (48 <=? n) && (n <=? 57) then Some (n - 48) else None.

Definition number (ds : list ascii) : option Z :=
  fold_left
    (fun acc c =>
       match acc, digit c with
       | Some n, Some d => Some (10 * n + d)
       | _, _ => None
       end)
    ds (Some 0).

(** [datetime.date.fromisoformat], of Python's standard library, on the
    extended format [YYYY-MM-DD], which every version of Python reads this
    way.  The model answers [ValueError] for any other text and for a day
    that does not exist; Python 3.11 and later also read the other ISO 8601
    forms ([YYYYMMDD], [YYYY-Www-D]), which are not modelled.  So a property
    below speaks of a text only where this function reads it as a date: then
    Python reads it as the same date. *)
Definition fromisoformat (s : string) : res date :=
  match list_ascii_of_string s with
  | [y1; y2; y3; y4; "-"%char; m1; m2; "-"%char; d1; d2] =>
      match number [y1; y2; y3; y4], number [m1; m2], number [d1; d2] with
      | Some y, Some m, Some d =>
          if valid_date (mkdate y m d) then inr (mkdate y m d)
          else inl ValueError
      | _, _, _ => inl ValueError
      end
  | _ => inl ValueError
  end.

(** Modelled from the spec: the DateInput backend ([get_value] / [set_value],
    [get_min_date] / [set_min_date], [get_max_date] / [set_max_date]), which
    lives in the platform packages.  It stores what it is given; [reports]
    says for which replacement of the value (old, new) the native widget
    reports a change to the interface. *)
Record Impl : Type := mkImpl {
  impl_value : date;
  impl_min_date : date;
  impl_max_date : date;
  reports : date -> date -> bool
}.

Record DateInput : Type := mkDateInput {
  _impl : Impl;
  _on_change : option handler_id;
  fired : list handler_id;
  (** what [datetime.date.today()] answers *)
  today : date
}.

Definition with_impl (f : Impl -> Impl) (w : DateInput) : DateInput :=
  mkDateInput (f (_impl w)) (_on_change w) (fired w) (today w).

(** [on_change] setter. *)
Definition on_change_set (handler : option handler_id) : M DateInput unit :=
  modify (fun w =>
    mkDateInput (_impl w) (wrapped_handler handler) (fired w) (today w)).

(** [self.interface.on_change()], as the backend calls it. *)
Definition interface_on_change : M DateInput unit :=
  modify (fun w =>
    mkDateInput (_impl w) (_on_change w)
                (call_handler (_on_change w) (fired w)) (today w)).

Definition get_value (w : DateInput) : date := impl_value (_impl w).
Definition get_min_date (w : DateInput) : date := impl_min_date (_impl w).
Definition get_max_date (w : DateInput) : date := impl_max_date (_impl w).

Definition impl_set_value (v : date) : M DateInput unit :=
  old <- gets get_value ;;
  notify <- gets (fun w => reports (_impl w) old v) ;;
  modify (with_impl (fun i =>
    mkImpl v (impl_min_date i) (impl_max_date i) (reports i))) ;;
  if notify then interface_on_change else ret tt.

Definition impl_set_min_date (v : date) : M DateInput unit :=
  modify (with_impl (fun i =>
    mkImpl (impl_value i) v (impl_max_date i) (reports i))).

Definition impl_set_max_date (v : date) : M DateInput unit :=
  modify (with_impl (fun i =>
    mkImpl (impl_value i) (impl_min_date i) v (reports i))).

(** The [value], [min] and [max] properties read the backend. *)
Definition value (w : DateInput) : date := get_value w.
Definition min (w : DateInput) : date := get_min_date w.
Definition max (w : DateInput) : date := get_max_date w.

Definition _convert_date (value : pyobj) (check_range : bool)
  : M DateInput date :=
  value <-
    match value with
    | PyNone => gets today
    | PyDateTime d _ _ _ => ret d
    | PyDate d => ret d
    | PyStr s => eval (fun _ => fromisoformat s)
    | PyOther => raise TypeError
    end ;;
  (if check_range then
     if date_ltb value MIN_DATE then raise ValueError
     else if date_gtb value MAX_DATE then raise ValueError
     else ret tt
   else ret tt) ;;
  ret value.

Definition value_set (value : pyobj) : M DateInput unit :=
  value <- _convert_date value false ;;
  lo <- gets min ;;
  hi <- gets max ;;
  let value :=
    if date_ltb value lo then lo
    else if date_gtb value hi then hi
    else value in
  impl_set_value value.

Definition min_set (value : pyobj) : M DateInput unit :=
  min' <-
    match value with
    | PyNone => ret MIN_DATE
    | _ => _convert_date value true
    end ;;
  hi <- gets max ;;
  (if date_ltb hi min' then impl_set_max_date min' else ret tt) ;;
  impl_set_min_date min' ;;
  v <- gets DateInput.value ;;
  if date_ltb v min' then value_set (PyDate min') else ret tt.

Definition max_set (value : pyobj) : M DateInput unit :=
  max' <-
    match value with
    | PyNone => ret MAX_DATE
    | _ => _convert_date value true
    end ;;
  lo <- gets min ;;
  (if date_gtb lo max' then impl_set_min_date max' else ret tt) ;;
  impl_set_max_date max' ;;
  v <- gets DateInput.value ;;
  if date_gtb v max' then value_set (PyDate max') else ret tt.

(** The widget as [Widget.__init__] leaves it: the backend has just been
    created by [_create], with whatever the native widget starts from. *)
Definition created (impl0 : Impl) (today0 : date) : DateInput :=
  mkDateInput impl0 None [] today0.

Definition __init__ (value min max : pyobj) (on_change : option handler_id)
  : M DateInput unit :=
  on_change_set None ;;
  min_set min ;;
  max_set max ;;
  value_set value ;;
  on_change_set on_change.

(** The assignments an application can make to a constructed widget. *)
Inductive mutation : Type :=
| SetValue (v : pyobj)
| SetMin (v : pyobj)
| SetMax (v : pyobj).

Definition run (m : mutation) : M DateInput unit :=
  match m with
  | SetValue v => value_set v
  | SetMin v => min_set v
  | SetMax v => max_set v
  end.

(** [min <= value <= max]. *)
Definition in_range (w : DateInput) : Prop :=
  date_leb (min w) (value w) = true /\ date_leb (value w) (max w) = true.

(** The date an assigned object stands for, [None] standing for [default]
    (today's date for [value], the end of the supported window for [min] and
    [max]); no date for a text that is not a date, or another object. *)
Definition date_of (default : date) (x : pyobj) : option date :=
  match x with
  | PyNone => Some default
  | PyDateTime d _ _ _ => Some d
  | PyDate d => Some d
  | PyStr s =>
      match fromisoformat s with
      | inr d => Some d
      | inl _ => None
      end
  | PyOther => None
  end.

(** The supported window [MIN_DATE, MAX_DATE]. *)
Definition in_window (d : date) : bool :=
  date_leb MIN_DATE d && date_leb d MAX_DATE.

(** The widgets an application can hold: constructed ones, after any number
    of assignments, whether they returned or raised. *)
Inductive reachable : DateInput -> Prop :=
| reach_init impl0 today0 v lo hi h w :
    __init__ v lo hi h (created impl0 today0) = Returns tt w ->
    reachable w
| reach_run w m :
    reachable w ->
    reachable (final (run m w))
| reach_on_change w h :
    reachable w ->
    reachable (final (on_change_set h w)).

End DateInput.

(** * The arithmetic of the slider

    What the slider code asks of Python numbers: float arithmetic and
    comparison, true division (which raises on a zero divisor), the
    conversion of an [int] operand to [float] (which raises when the integer
    is too large), and [round] to the nearest integer, ties to even. *)

Class PyFloat (F : Type) : Type := {
  zero : F;
  one : F;
  fadd : F -> F -> F;
  fsub : F -> F -> F;
  fmul : F -> F -> F;
  (** [x / y] *)
  truediv : F -> F -> res F;
  (** [x < y], [x <= y], [x == y] *)
  flt : F -> F -> bool;
  fle : F -> F -> bool;
  feq : F -> F -> bool;
  (** the conversion of an [int] operand in mixed arithmetic *)
  of_int : Z -> res F;
  (** [a / b] for two [int]s *)
  int_truediv : Z -> Z -> res F;
  (** [round(x)] *)
  round : F -> res Z
}.

Section PyNumbers.

Context {F : Type} `{PyFloat F}.

Local Open Scope py_scope.

(** [x > y] is [y < x]; [x != y] is [not (x == y)]. *)
Definition fgt (x y : F) : bool := flt y x.
Definition fne (x y : F) : bool := negb (feq x y).

(** The builtins [max(a, b)] and [min(a, b)]: the first argument is kept
    unless the second one is strictly better. *)
Definition py_max (a b : F) : F := if fgt b a then b else a.
Definition py_min (a b : F) : F := if flt b a then b else a.

(** [x / n], [x * n] and [n * x] for an [int] [n]. *)
Definition truediv_int (x : F) (n : Z) : res F :=
  let? d := of_int n in truediv x d.

Definition mul_int (x : F) (n : Z) : res F :=
  let? d := of_int n in inr (fmul x d).

Definition int_mul (n : Z) (x : F) : res F :=
  let? d := of_int n in inr (fmul d x).

End PyNumbers.

(** ** binary64 *)

Module Float64.

(** The integer nearest to [m * 2^e], ties to even. *)
Definition round_half_even (m : positive) (e : Z) : Z :=
  if 0 <=? e then Z.pos m * 2 ^ e
  else
    let d := 2 ^ (- e) in
    let q := Z.pos m / d in
    let r := Z.pos m mod d in
    match 2 * r ?= d with
    | Lt => q
    | Gt => q + 1
    | Eq => if Z.even q then q else q + 1
    end.

(** [round(x)]: [ValueError] on a NaN, [OverflowError] on an infinity. *)
Definition round (x : float) : res Z :=
  match Prim2SF x with
  | S754_nan => inl ValueError
  | S754_infinity _ => inl OverflowError
  | S754_zero _ => inr 0
  | S754_finite s m e => inr (cond_Zopp s (round_half_even m e))
  end.

(** The conversion of an [int] to [float]: the nearest float, ties to even,
    and [OverflowError] when that is no finite float. *)
Definition of_int (n : Z) : res float :=
  let x := SF2Prim (binary_normalize prec emax n 0 false) in
  if is_infinity x then inl OverflowError else inr x.

(** [x / y]: [ZeroDivisionError] when [y] is a zero. *)
Definition truediv (x y : float) : res float :=
  if (y =? 0)%float then inl ZeroDivisionError else inr (x / y)%float.

Definition spec_of_int (n : Z) : spec_float :=
  match n with
  | Z0 => S754_zero false
  | Zpos p => S754_finite false p 0
  | Zneg p => S754_finite true p 0
  end.

(** [a / b] for two [int]s: the float nearest to the quotient. *)
Definition int_truediv (a b : Z) : res float :=
  if b =? 0 then inl ZeroDivisionError
  else
    let x := SF2Prim (SFdiv prec emax (spec_of_int a) (spec_of_int b)) in
    if is_infinity x then inl OverflowError else inr x.


#[global] Instance binary64 : PyFloat float :=
  Build_PyFloat float
    0%float 1%float PrimFloat.add PrimFloat.sub PrimFloat.mul truediv
    PrimFloat.ltb PrimFloat.leb PrimFloat.eqb of_int int_truediv round.

End Float64.

(** * IntSliderImpl: the backend base class for native integer sliders *)

Module IntSliderImpl.

Section Impl.

Context {F : Type} `{PyFloat F}.

Local Open Scope py_scope.

(** Modelled from the spec: the native widget behind the abstract methods
    [get_int_value] / [set_int_value], [get_int_max] / [set_int_max] and
    [set_ticks_visible]: an integer position, an integer maximum (the minimum
    is fixed at 0) and the visibility of the tick marks, stored as given. *)
Record Native : Type := mkNative {
  int_value : Z;
  int_max : Z;
  ticks_visible : bool
}.

Record IntSliderImpl : Type := mkImpl {
  value : F;
  min : F;
  max : F;
  discrete : bool;
  native : Native
}.

(** Number of steps to use to approximate a continuous slider. *)
Definition CONTINUOUS_MAX : Z := 10000.

(** [__init__]: dummy values used during initialization (the integers 0, 0
    and 1, which every operation below treats as the floats 0.0, 0.0 and
    1.0), around the native widget as the platform created it. *)
Definition __init__ (native0 : Native) : IntSliderImpl :=
  mkImpl zero zero one false native0.

Definition get_int_value (i : IntSliderImpl) : Z := int_value (native i).
Definition get_int_max (i : IntSliderImpl) : Z := int_max (native i).

Definition set_int_value (v : Z) (i : IntSliderImpl) : IntSliderImpl :=
  mkImpl (value i) (min i) (max i) (discrete i)
         (mkNative v (int_max (native i)) (ticks_visible (native i))).

Definition set_int_max (m : Z) (i : IntSliderImpl) : IntSliderImpl :=
  mkImpl (value i) (min i) (max i) (discrete i)
         (mkNative (int_value (native i)) m (ticks_visible (native i))).

Definition set_ticks_visible (b : bool) (i : IntSliderImpl) : IntSliderImpl :=
  mkImpl (value i) (min i) (max i) (discrete i)
         (mkNative (int_value (native i)) (int_max (native i)) b).

Definition get_value (i : IntSliderImpl) : F := value i.
Definition get_min (i : IntSliderImpl) : F := min i.
Definition get_max (i : IntSliderImpl) : F := max i.

(** The native position for a value: [0 if span == 0 else
    round((value - self.min) / span * self.get_int_max())]. *)
Definition position (v : F) (i : IntSliderImpl) : res Z :=
  let span := fsub (max i) (min i) in
  if feq span zero then inr 0
  else
    let? q := truediv (fsub v (min i)) span in
    let? p := mul_int q (get_int_max i) in
    round p.

(** Assignments to [self.value], [self.min] and [self.max]. *)
Definition store_value (v : F) (i : IntSliderImpl) : IntSliderImpl :=
  mkImpl v (min i) (max i) (discrete i) (native i).

Definition store_min (v : F) (i : IntSliderImpl) : IntSliderImpl :=
  mkImpl (value i) v (max i) (discrete i) (native i).

Definition store_max (v : F) (i : IntSliderImpl) : IntSliderImpl :=
  mkImpl (value i) (min i) v (discrete i) (native i).

Definition set_value (v : F) : M IntSliderImpl unit :=
  p <- eval (position v) ;;
  modify (set_int_value p) ;;
  (* Cache the original value so we can round-trip it. *)
  modify (store_value v).

Definition set_min (v : F) : M IntSliderImpl unit := modify (store_min v).

Definition set_max (v : F) : M IntSliderImpl unit := modify (store_max v).

Definition get_tick_count (i : IntSliderImpl) : option Z :=
  if discrete i then Some (get_int_max i + 1) else None.

Definition set_discrete (b : bool) (i : IntSliderImpl) : IntSliderImpl :=
  mkImpl (value i) (min i) (max i) b (native i).

Definition set_tick_count (tick_count : option Z) : M IntSliderImpl unit :=
  match tick_count with
  | None =>
      modify (set_discrete false) ;;
      modify (set_int_max CONTINUOUS_MAX)
  | Some n =>
      modify (set_discrete true) ;;
      modify (set_int_max (n - 1))
  end ;;
  d <- gets discrete ;;
  modify (set_ticks_visible d).

(** The value the native position stands for, which [on_change] caches
    when the native widget reports that the user moved the slider:
    [self.min + (self.get_int_value() / self.get_int_max() * span)]. *)
Definition native_value (i : IntSliderImpl) : res F :=
  let span := fsub (max i) (min i) in
  let? q := int_truediv (get_int_value i) (get_int_max i) in
  inr (fadd (min i) (fmul q span)).

End Impl.

Arguments IntSliderImpl F : clear implicits.

End IntSliderImpl.

(** * Slider *)

Module Slider.

Section Interface.

Context {F : Type} `{PyFloat F}.

Local Open Scope py_scope.

Record Slider : Type := mkSlider {
  _impl : IntSliderImpl.IntSliderImpl F;
  _on_change : option handler_id;
  _on_press : option handler_id;
  _on_release : option handler_id;
  enabled : bool;
  (** the application handlers invoked so far, the most recent one first *)
  fired : list handler_id
}.

(** The widget as [Widget.__init__] leaves it: [_create] has built the
    backend around the native widget. *)
Definition created (native0 : IntSliderImpl.Native) : Slider :=
  mkSlider (IntSliderImpl.__init__ native0) None None None true [].

Definition with_impl (i : IntSliderImpl.IntSliderImpl F) (s : Slider)
  : Slider :=
  mkSlider i (_on_change s) (_on_press s) (_on_release s) (enabled s)
           (fired s).

(** A call of a backend method on [self._impl]. *)
Definition impl {A : Type} (c : M (IntSliderImpl.IntSliderImpl F) A)
  : M Slider A :=
  fun s =>
    match c (_impl s) with
    | Returns a i => Returns a (with_impl i s)
    | Raises e i => Raises e (with_impl i s)
    end.

Definition store_on_change (h : option handler_id) (s : Slider) : Slider :=
  mkSlider (_impl s) h (_on_press s) (_on_release s) (enabled s) (fired s).

(** Calling the wrapped handler [h]. *)
Definition call (h : option handler_id) (s : Slider) : Slider :=
  mkSlider (_impl s) (_on_change s) (_on_press s) (_on_release s) (enabled s)
           (call_handler h (fired s)).

(** The [on_change], [on_press] and [on_release] setters. *)
Definition on_change_set (handler : option handler_id) : M Slider unit :=
  modify (store_on_change (wrapped_handler handler)).

Definition on_press_set (handler : option handler_id) : M Slider unit :=
  modify (fun s =>
    mkSlider (_impl s) (_on_change s) (wrapped_handler handler)
             (_on_release s) (enabled s) (fired s)).

Definition on_release_set (handler : option handler_id) : M Slider unit :=
  modify (fun s =>
    mkSlider (_impl s) (_on_change s) (_on_press s)
             (wrapped_handler handler) (enabled s) (fired s)).

Definition enabled_set (b : bool) : M Slider unit :=
  modify (fun s =>
    mkSlider (_impl s) (_on_change s) (_on_press s) (_on_release s) b
             (fired s)).

(** The [value], [min], [max] and [tick_count] getters read the backend. *)
Definition value (s : Slider) : F := IntSliderImpl.get_value (_impl s).
Definition min (s : Slider) : F := IntSliderImpl.get_min (_impl s).
Definition max (s : Slider) : F := IntSliderImpl.get_max (_impl s).
Definition tick_count (s : Slider) : option Z :=
  IntSliderImpl.get_tick_count (_impl s).

Definition tick_step (s : Slider) : res (option F) :=
  match tick_count s with
  | None => inr None
  | Some n =>
      if feq (max s) (min s) then inr None
      else
        let? step := truediv_int (fsub (max s) (min s)) (n - 1) in
        inr (Some step)
  end.

(** [tick_value] getter.  The source reads [self.tick_step] twice, for the
    test and for the division; nothing changes in between. *)
Definition tick_value (s : Slider) : res (option Z) :=
  match tick_count s with
  | None => inr None
  | Some _ =>
      let? step := tick_step s in
      match step with
      | None => inr None
      | Some step =>
          let? q := truediv (fsub (value s) (min s)) step in
          let? k := round q in
          inr (Some (k + 1))
      end
  end.

Definition _round_value (value : F) (s : Slider) : res F :=
  let? step := tick_step s in
  match step with
  | Some step =>
      (* Round to the nearest tick. *)
      let? q := truediv (fsub value (min s)) step in
      let? k := round q in
      let? d := int_mul k step in
      inr (fadd (min s) d)
  | None => inr value
  end.

(** [float(value)] is the identity on a float. *)
Definition _set_value (value : F) : M Slider unit :=
  v <- eval (_round_value value) ;;
  impl (IntSliderImpl.set_value v).

(** The context manager [_programmatic_change]: [body] is the block under
    [with], given the value bound by [as].  When the block raises, the
    generator is not resumed past its [yield]. *)
Definition _programmatic_change (body : F -> M Slider unit) : M Slider unit :=
  old_value <- gets value ;;
  on_change <- gets _on_change ;;
  on_change_set None ;;
  body old_value ;;
  modify (store_on_change on_change) ;;
  v <- gets value ;;
  if fne v old_value then modify (call on_change) else ret tt.

(** The clipping at the head of the [value] setter. *)
Definition clip (value : F) (s : Slider) : F :=
  if flt value (min s) then min s
  else if fgt value (max s) then max s
  else value.

Definition value_set (value : F) : M Slider unit :=
  value <- gets (clip value) ;;
  _programmatic_change (fun _ => _set_value value).

Definition min_set (value : F) : M Slider unit :=
  _programmatic_change (fun old_value =>
    let _min := value in
    _max <- gets max ;;
    _max <- (if flt _max _min
             then impl (IntSliderImpl.set_max _min) ;; ret _min
             else ret _max) ;;
    impl (IntSliderImpl.set_min _min) ;;
    _set_value (py_max _min (py_min _max old_value))).

Definition max_set (value : F) : M Slider unit :=
  _programmatic_change (fun old_value =>
    _min <- gets min ;;
    let _max := value in
    _min <- (if fgt _min _max
             then impl (IntSliderImpl.set_min _max) ;; ret _max
             else ret _min) ;;
    impl (IntSliderImpl.set_max _max) ;;
    _set_value (py_max _min (py_min _max old_value))).

Definition tick_count_set (tick_count : option Z) : M Slider unit :=
  match tick_count with
  | Some n => if n <? 2 then raise ValueError else ret tt
  | None => ret tt
  end ;;
  _programmatic_change (fun old_value =>
    impl (IntSliderImpl.set_tick_count tick_count) ;;
    value_set old_value).

Definition tick_value_set (tick_value : option Z) : M Slider unit :=
  n <- gets tick_count ;;
  match n with
  | None =>
      match tick_value with
      | Some _ => raise ValueError
      | None => ret tt
      end
  | Some _ =>
      match tick_value with
      | None => raise ValueError
      | Some t =>
          step <- eval tick_step ;;
          match step with
          | None => raise ValueError
          | Some step =>
              lo <- gets min ;;
              d <- eval (fun _ => int_mul (t - 1) step) ;;
              value_set (fadd lo d)
          end
      end
  end.

Definition __init__ (value : option F) (min max : F) (tick_count : option Z)
    (on_change on_press on_release : option handler_id) (enabled : bool)
  : M Slider unit :=
  (* Set a dummy handler before installing the actual on_change, because we
     do not want on_change triggered by the initial value being set *)
  on_change_set None ;;
  min_set min ;;
  max_set max ;;
  tick_count_set tick_count ;;
  value <- match value with
           | None => eval (fun _ => truediv_int (fadd min max) 2)
           | Some v => ret v
           end ;;
  value_set value ;;
  on_change_set on_change ;;
  on_press_set on_press ;;
  on_release_set on_release ;;
  enabled_set enabled.

(** [IntSliderImpl.on_change], which the native widget calls when the user
    has moved the slider: the value is recomputed from the native position
    and the interface's handler is called. *)
Definition impl_on_change : M Slider unit :=
  v <- eval (fun s => IntSliderImpl.native_value (_impl s)) ;;
  impl (modify (IntSliderImpl.store_value v)) ;;
  h <- gets _on_change ;;
  modify (call h).

(** Modelled from the spec: the native change callback.  The user drags the
    native slider to position [p]; the native widget holds that position
    and calls [on_change] of the backend. *)
Definition user_moves (p : Z) : M Slider unit :=
  impl (modify (IntSliderImpl.set_int_value p)) ;;
  impl_on_change.

(** Modelled from the spec: what can happen inside the scope of a
    programmatic change, where the native widgets are platform code.  The
    interface calls a method of the backend; and the native widget may
    answer with change events of its own ("backends are inconsistent about
    when they produce events for programmatic changes"), each of which sets
    a native position and reaches [IntSliderImpl.on_change]. *)
Inductive backend_event : Type :=
| Backend_set_value (v : F)
| Backend_set_min (v : F)
| Backend_set_max (v : F)
| Backend_set_tick_count (n : option Z)
| Native_change (p : Z).

Definition occur (e : backend_event) : M Slider unit :=
  match e with
  | Backend_set_value v => impl (IntSliderImpl.set_value v)
  | Backend_set_min v => impl (IntSliderImpl.set_min v)
  | Backend_set_max v => impl (IntSliderImpl.set_max v)
  | Backend_set_tick_count n => impl (IntSliderImpl.set_tick_count n)
  | Native_change p => user_moves p
  end.

Fixpoint perform (events : list backend_event) : M Slider unit :=
  match events with
  | [] => ret tt
  | e :: events => occur e ;; perform events
  end.

(** The assignments an application can make to a constructed slider. *)
Inductive mutation : Type :=
| SetValue (v : F)
| SetMin (v : F)
| SetMax (v : F)
| SetTickCount (n : option Z).

Definition run (m : mutation) : M Slider unit :=
  match m with
  | SetValue v => value_set v
  | SetMin v => min_set v
  | SetMax v => max_set v
  | SetTickCount n => tick_count_set n
  end.

(** [min <= value <= max]. *)
Definition in_range (s : Slider) : Prop :=
  fle (min s) (value s) = true /\ fle (value s) (max s) = true.

(** A computation is quiet when, started with no handler installed, it
    invokes no application handler and leaves none installed. *)
Definition quiet {A : Type} (c : M Slider A) : Prop :=
  forall s, _on_change s = None ->
    _on_change (final (c s)) = None /\ fired (final (c s)) = fired s.

End Interface.

Arguments Slider F : clear implicits.
Arguments mutation F : clear implicits.
Arguments backend_event F : clear implicits.

End Slider.

(** * Example widgets *)

Module Examples.

Import Float64.

(** A native slider as a platform may create it. *)
Definition native0 : IntSliderImpl.Native := IntSliderImpl.mkNative 0 0 false.

Definition backend (value min max : float) (discrete : bool)
    (int_value int_max : Z) (ticks_visible : bool)
  : IntSliderImpl.IntSliderImpl float :=
  IntSliderImpl.mkImpl value min max discrete
    (IntSliderImpl.mkNative int_value int_max ticks_visible).

Definition slider (i : IntSliderImpl.IntSliderImpl float)
    (h : option handler_id) (log : list handler_id) : Slider.Slider float :=
  Slider.mkSlider i h None None true log.

(** [Slider(min=0, max=10, tick_count=3, on_change=h1)], where [h1] is the
    handler number 1: the value defaults to 5.0. *)
Definition tick3 : Slider.Slider float :=
  slider (backend 5 0 10 true 1 2 true) (Some 1%nat) [].

(** [tick3] after [value = 7]: nothing changes. *)
Definition tick3_7 : Slider.Slider float := tick3.

(** [tick3] after [value = 1]: the value is 0.0 and the handler was called. *)
Definition tick3_1 : Slider.Slider float :=
  slider (backend 0 0 10 true 0 2 true) (Some 1%nat) [1%nat].

(** The floats nearest to 0.1 and 0.3, and the float after the latter
    (printed 0.30000000000000004). *)
Definition f0_1 : float := 0x1.999999999999ap-4.
Definition f0_3 : float := 0x1.3333333333333p-2.
Definition f0_3_up : float := 0x1.3333333333334p-2.

(** [Slider(min=0.1, max=0.3, tick_count=4)]: the value defaults to the
    tick 0.23333333333333334. *)
Definition tenths : Slider.Slider float :=
  slider (backend 0x1.ddddddddddddep-3 f0_1 f0_3 true 2 3 true) None [].

(** [tenths] after [value = 0.3]. *)
Definition tenths_max : Slider.Slider float :=
  slider (backend f0_3_up f0_1 f0_3 true 3 3 true) None [].

(** [Slider(min=1, max=1, tick_count=3)] and [Slider(min=1, max=1)]. *)
Definition flat3 : Slider.Slider float :=
  slider (backend 1 1 1 true 0 2 true) None [].

Definition flat : Slider.Slider float :=
  slider (backend 1 1 1 false 0 10000 false) None [].

(** [flat] after [value = float("nan")]. *)
Definition flat_nan : Slider.Slider float :=
  slider (backend nan 1 1 false 0 10000 false) None [].

(** [Slider(on_change=h1)]: the range is [0, 1] and the value 0.5; its
    backend, and that backend after [set_min(0.25)]. *)
Definition unit_impl : IntSliderImpl.IntSliderImpl float :=
  backend 0.5 0 1 false 5000 10000 false.

Definition unit_slider : Slider.Slider float :=
  slider unit_impl (Some 1%nat) [].

Definition unit_impl_min : IntSliderImpl.IntSliderImpl float :=
  backend 0.5 0.25 1 false 5000 10000 false.

(** [unit_slider] after [max = 0.25]. *)
Definition unit_quarter : Slider.Slider float :=
  slider (backend 0.25 0 0.25 false 10000 10000 false) (Some 1%nat) [1%nat].

(** A date backend showing 15 June 2000, open from 1 January 1900 to
    31 December 2100, which reports every change of the value. *)
Definition date_impl0 : DateInput.Impl :=
  DateInput.mkImpl (DateInput.mkdate 2000 6 15) (DateInput.mkdate 1900 1 1)
    (DateInput.mkdate 2100 12 31) (fun old new => negb (DateInput.date_eqb old new)).

Definition today0 : DateInput.date := DateInput.mkdate 2024 2 29.

(** [DateInput(min="1999-01-01", max="1999-12-31", value="2050-01-01",
    on_change=h1)] on that backend. *)
Definition year1999 : DateInput.DateInput :=
  DateInput.mkDateInput
    (DateInput.mkImpl (DateInput.mkdate 1999 12 31)
       (DateInput.mkdate 1999 1 1) (DateInput.mkdate 1999 12 31)
       (fun old new => negb (DateInput.date_eqb old new)))
    (Some 1%nat) [] today0.

(** [year1999] after [value = date(1999, 1, 1)]: the handler was called. *)
Definition year1999_jan1 : DateInput.DateInput :=
  DateInput.mkDateInput
    (DateInput.mkImpl (DateInput.mkdate 1999 1 1)
       (DateInput.mkdate 1999 1 1) (DateInput.mkdate 1999 12 31)
       (fun old new => negb (DateInput.date_eqb old new)))
    (Some 1%nat) [1%nat] today0.

(** [unit_slider] after the failed [min = float("nan")]: the minimum is
    stored, the value is not refreshed and the handler is left disabled. *)
Definition unit_nan_min : Slider.Slider float :=
  slider (backend 0.5 nan 1 false 5000 10000 false) None [].

(** [unit_slider] after the user dragged the native slider to 2500. *)
Definition unit_dragged : Slider.Slider float :=
  slider (backend 0.25 0 1 false 2500 10000 false) (Some 1%nat) [1%nat].

(** [unit_slider] after [min = 2], which drags the maximum and the value;
    after [max = -1], which drags the minimum and the value; and after the
    failed [min = float("inf")], which had dragged the maximum before it
    raised. *)
Definition unit_min2 : Slider.Slider float :=
  slider (backend 2 2 2 false 0 10000 false) (Some 1%nat) [1%nat].

Definition unit_max_neg : Slider.Slider float :=
  slider (backend (-1) (-1) (-1) false 0 10000 false) (Some 1%nat) [1%nat].

Definition unit_min_inf : Slider.Slider float :=
  slider (backend 0.5 infinity infinity false 5000 10000 false) None [].

(** [unit_slider] after the failed [value = float("nan")]: the handler is
    left disabled; and that slider after [value = 0.75]. *)
Definition unit_disabled : Slider.Slider float :=
  slider unit_impl None [].

Definition unit_disabled_075 : Slider.Slider float :=
  slider (backend 0.75 0 1 false 7500 10000 false) None [].

(** [tick3] after [value = 8], and after [value = 14]: the tick 10.0. *)
Definition tick3_max : Slider.Slider float :=
  slider (backend 10 0 10 true 2 2 true) (Some 1%nat) [1%nat].

(** [tick3] after the failed [value = float("nan")]. *)
Definition tick3_disabled : Slider.Slider float :=
  slider (backend 5 0 10 true 1 2 true) None [].

(** The smallest positive float (printed 5e-324), and [tick3] after the
    failed [max = 5e-324]: the maximum is stored, the tick step
    [5e-324 / 2] is 0.0, and the refresh of the value divided by it. *)
Definition tiny : float := 0x1p-1074.

Definition tick3_tiny : Slider.Slider float :=
  slider (backend 5 0 tiny true 1 2 true) None [].

(** [unit_slider] after [value = 7]. *)
Definition unit_full : Slider.Slider float :=
  slider (backend 1 0 1 false 10000 10000 false) (Some 1%nat) [1%nat].


End Examples.

(** * Computations *)

Lemma bind_returns {S A B : Type} (c : M S A) (k : A -> M S B) s b s2 :
  bind c k s = Returns b s2 ->
  exists a s1, c s = Returns a s1 /\ k a s1 = Returns b s2.
Proof.
  unfold bind. destruct (c s) as [a s1|e s1]; [eauto|discriminate].
Qed.

Lemma final_bind {S A B : Type} (c : M S A) (k : A -> M S B) s :
  final (bind c k s) =
  match c s with
  | Returns a s1 => final (k a s1)
  | Raises _ s1 => s1
  end.
Proof. unfold bind. now destruct (c s). Qed.

(** * Properties of DateInput *)

Module DateInputFacts.

Import DateInput.

Lemma date_ltb_irrefl a : date_ltb a a = false.
Proof.
  unfold date_ltb.
  rewrite !Z.ltb_irrefl, !Z.eqb_refl. reflexivity.
Qed.

Lemma date_ltb_lt a b :
  date_ltb a b = true <->
  year a < year b \/
  (year a = year b /\ (month a < month b \/ (month a = month b /\ day a < day b))).
Proof.
  unfold date_ltb.
  rewrite !orb_true_iff, !andb_true_iff, !orb_true_iff, !andb_true_iff,
    !Z.ltb_lt, !Z.eqb_eq.
  tauto.
Qed.

Lemma date_ltb_asym a b : date_ltb a b = true -> date_ltb b a = false.
Proof.
  intros Hab. destruct (date_ltb b a) eqn:Hba; [|reflexivity].
  apply date_ltb_lt in Hab. apply date_ltb_lt in Hba. lia.
Qed.

Lemma date_ltb_trans a b c :
  date_ltb a b = true -> date_ltb b c = true -> date_ltb a c = true.
Proof.
  rewrite !date_ltb_lt. lia.
Qed.

Lemma date_leb_refl a : date_leb a a = true.
Proof. unfold date_leb. now rewrite date_ltb_irrefl. Qed.

Lemma date_ltb_leb a b : date_ltb a b = true -> date_leb a b = true.
Proof. intros Hab. unfold date_leb. now rewrite (date_ltb_asym _ _ Hab). Qed.

Lemma date_leb_trans a b c :
  date_leb a b = true -> date_leb b c = true -> date_leb a c = true.
Proof.
  unfold date_leb. rewrite !negb_true_iff. intros Hba Hcb.
  destruct (date_ltb c a) eqn:Hca; [|reflexivity].
  assert (~ (date_ltb b a = true)) as Nba by congruence.
  assert (~ (date_ltb c b = true)) as Ncb by congruence.
  rewrite date_ltb_lt in Hca, Nba, Ncb. lia.
Qed.

(** Dates that compare equal both ways are the same date. *)
Lemma date_leb_antisym a b :
  date_leb a b = true -> date_leb b a = true -> a = b.
Proof.
  unfold date_leb. rewrite !negb_true_iff. intros Hba Hab.
  assert (~ (date_ltb b a = true)) as Nba by congruence.
  assert (~ (date_ltb a b = true)) as Nab by congruence.
  rewrite date_ltb_lt in Nba, Nab.
  destruct a as [ya ma da], b as [yb mb db]; simpl in *.
  f_equal; lia.
Qed.


Local Open Scope py_scope.

Ltac run_date :=
  unfold min_set, max_set, value_set, _convert_date, impl_set_value,
    impl_set_min_date, impl_set_max_date, interface_on_change, on_change_set,
    bind, ret, raise, gets, modify, eval, with_impl,
    value, min, max, get_value, get_min_date, get_max_date, date_gtb in *;
  simpl in *.

Lemma value_set_spec x w :
  match date_of (today w) x with
  | Some d =>
      exists w',
        value_set x w = Returns tt w' /\
        value w' = (if date_ltb d (min w) then min w
                    else if date_gtb d (max w) then max w else d) /\
        min w' = min w /\ max w' = max w /\
        today w' = today w /\ _on_change w' = _on_change w /\
        (_on_change w = None -> fired w' = fired w)
  | None => exists e, value_set x w = Raises e w
  end.
Proof.
  destruct w as [[v lo hi rep] h log td].
  destruct x as [|d ? ? ?|d|s|]; run_date.
  all: try (destruct (fromisoformat s) as [e|d]; simpl; [exists e; reflexivity|]).
  all: try (eexists; reflexivity).
  all: repeat match goal with
       | |- context [if ?b then _ else _] => destruct b eqn:?; simpl
       end.
  all: eexists; (split; [reflexivity|]); simpl;
       repeat split; intros ->; reflexivity.
Qed.


Ltac run_setter :=
  unfold min_set, max_set, _convert_date,
    impl_set_min_date, impl_set_max_date, on_change_set,
    bind, ret, raise, gets, modify, eval, with_impl, in_window, date_leb,
    value, min, max, get_value, get_min_date, get_max_date, date_gtb in *;
  simpl in *.

Lemma min_set_spec x w :
  match date_of MIN_DATE x with
  | Some m =>
      if in_window m then
        exists w',
          min_set x w = Returns tt w' /\
          min w' = m /\
          max w' = (if date_ltb (max w) m then m else max w) /\
          value w' = (if date_ltb (value w) m then m else value w) /\
          today w' = today w /\ _on_change w' = _on_change w /\
          (_on_change w = None -> fired w' = fired w)
      else min_set x w = Raises ValueError w
  | None => exists e, min_set x w = Raises e w
  end.
Proof.
  destruct w as [[v lo hi rep] h log td].
  destruct x as [|d ? ? ?|d|s|]; run_setter.
  all: try (destruct (fromisoformat s) as [e|d]; simpl; [exists e; reflexivity|]).
  all: try (eexists; reflexivity).
  all: try (destruct (date_ltb d MIN_DATE) eqn:Wlo; simpl; [reflexivity|];
            destruct (date_ltb MAX_DATE d) eqn:Whi; simpl; [reflexivity|]).
  all: repeat match goal with
       | |- context [if date_ltb ?a ?b then _ else _] =>
           destruct (date_ltb a b) eqn:?; simpl
       end.
  all: try (eexists; split; [reflexivity|]; simpl; tauto).
  all: match goal with
       | |- exists w', value_set (PyDate ?m) ?w0 = _ /\ _ =>
           destruct (value_set_spec (PyDate m) w0)
             as (w' & Hr & Hv & Hlo' & Hhi' & Htd & Hh & Hf);
           exists w'; run_setter;
           rewrite ?date_ltb_irrefl in Hv
       end.
  all: repeat match goal with
       | H : date_ltb ?a ?b = _, H' : context [date_ltb ?a ?b] |- _ =>
           rewrite H in H'
       end.
  all: rewrite ?date_ltb_irrefl in *; tauto.
Qed.

Lemma max_set_spec x w :
  match date_of MAX_DATE x with
  | Some m =>
      if in_window m then
        exists w',
          max_set x w = Returns tt w' /\
          max w' = m /\
          min w' = (if date_gtb (min w) m then m else min w) /\
          value w' = (if date_gtb (value w) m then m else value w) /\
          today w' = today w /\ _on_change w' = _on_change w /\
          (_on_change w = None -> fired w' = fired w)
      else max_set x w = Raises ValueError w
  | None => exists e, max_set x w = Raises e w
  end.
Proof.
  destruct w as [[v lo hi rep] h log td].
  destruct x as [|d ? ? ?|d|s|]; run_setter.
  all: try (destruct (fromisoformat s) as [e|d]; simpl; [exists e; reflexivity|]).
  all: try (eexists; reflexivity).
  all: try (destruct (date_ltb d MIN_DATE) eqn:Wlo; simpl; [reflexivity|];
            destruct (date_ltb MAX_DATE d) eqn:Whi; simpl; [reflexivity|]).
  all: repeat match goal with
       | |- context [if date_ltb ?a ?b then _ else _] =>
           destruct (date_ltb a b) eqn:?; simpl
       end.
  all: try (eexists; split; [reflexivity|]; simpl; tauto).
  all: match goal with
       | |- exists w', value_set (PyDate ?m) ?w0 = _ /\ _ =>
           destruct (value_set_spec (PyDate m) w0)
             as (w' & Hr & Hv & Hlo' & Hhi' & Htd & Hh & Hf);
           exists w'; run_setter;
           rewrite ?date_ltb_irrefl in Hv
       end.
  all: repeat match goal with
       | H : date_ltb ?a ?b = _, H' : context [date_ltb ?a ?b] |- _ =>
           rewrite H in H'
       end.
  all: rewrite ?date_ltb_irrefl in *; tauto.
Qed.

(** Order reasoning on dates, by the integer components. *)
Ltac dates :=
  unfold in_range, in_window, date_leb, date_gtb in *;
  repeat match goal with
         | H : _ /\ _ |- _ => destruct H
         | H : andb _ _ = true |- _ => apply andb_true_iff in H
         | H : negb _ = true |- _ => apply negb_true_iff in H
         | H : negb _ = false |- _ => apply negb_false_iff in H
         end;
  repeat match goal with
         | H : context [if date_ltb ?a ?b then _ else _] |- _ =>
             destruct (date_ltb a b) eqn:?
         | |- context [date_ltb ?a ?b] => destruct (date_ltb a b) eqn:?
         end;
  simpl in *; subst;
  repeat match goal with
         | |- _ /\ _ => split
         end;
  try reflexivity; try discriminate; try congruence;
  exfalso;
  repeat match goal with
         | H : date_ltb ?a ?b = true |- _ => apply date_ltb_lt in H
         | H : date_ltb ?a ?b = false |- _ =>
             assert (~ (date_ltb a b = true)) by congruence; clear H
         end;
  repeat match goal with
         | H : ~ (date_ltb ?a ?b = true) |- _ => rewrite date_ltb_lt in H
         end;
  simpl in *; lia.

Lemma value_set_in_range x w w' :
  date_leb (min w) (max w) = true ->
  value_set x w = Returns tt w' ->
  in_range w'.
Proof.
  intros Hw Hr. pose proof (value_set_spec x w) as Hs.
  destruct (date_of (today w) x) as [d|].
  - destruct Hs as (w1 & Hr1 & Hv & Hlo & Hhi & _).
    rewrite Hr in Hr1. injection Hr1 as <-.
    unfold in_range. rewrite Hv, Hlo, Hhi. clear Hv Hlo Hhi Hr.
    dates.
  - destruct Hs as (e & He). congruence.
Qed.

Lemma min_set_in_range x w :
  in_range w -> in_range (final (min_set x w)).
Proof.
  intros Hw. pose proof (min_set_spec x w) as Hs.
  destruct (date_of MIN_DATE x) as [m|].
  - destruct (in_window m).
    + destruct Hs as (w1 & -> & Hlo & Hhi & Hv & _). simpl.
      unfold in_range in *. rewrite Hv, Hlo, Hhi. clear Hv Hlo Hhi.
      dates.
    + rewrite Hs. exact Hw.
  - destruct Hs as (e & ->). exact Hw.
Qed.

Lemma max_set_in_range x w :
  in_range w -> in_range (final (max_set x w)).
Proof.
  intros Hw. pose proof (max_set_spec x w) as Hs.
  destruct (date_of MAX_DATE x) as [m|].
  - destruct (in_window m).
    + destruct Hs as (w1 & -> & Hhi & Hlo & Hv & _). simpl.
      unfold in_range in *. rewrite Hv, Hlo, Hhi. clear Hv Hlo Hhi.
      dates.
    + rewrite Hs. exact Hw.
  - destruct Hs as (e & ->). exact Hw.
Qed.

Lemma in_range_ordered w : in_range w -> date_leb (min w) (max w) = true.
Proof. intros [Hlo Hhi]. exact (date_leb_trans _ _ _ Hlo Hhi). Qed.

Lemma run_in_range m w : in_range w -> in_range (final (run m w)).
Proof.
  intros Hw. destruct m as [x|x|x]; simpl.
  - destruct (value_set x w) as [[] w'|e w'] eqn:Hr; simpl.
    + exact (value_set_in_range x w w' (in_range_ordered w Hw) Hr).
    + pose proof (value_set_spec x w) as Hs.
      destruct (date_of (today w) x).
      * destruct Hs as (w1 & Hr1 & _). congruence.
      * destruct Hs as (e1 & He). rewrite Hr in He. now injection He as _ ->.
  - now apply min_set_in_range.
  - now apply max_set_in_range.
Qed.

(** Construction: when it returns, the bounds are those given (the minimum
    lowered to the maximum if they conflict), and the value is the given one
    clipped to them. *)
Lemma date_init_spec v lo hi h impl0 today0 w :
  __init__ v lo hi h (created impl0 today0) = Returns tt w ->
  exists m1 m2 d,
    date_of MIN_DATE lo = Some m1 /\ date_of MAX_DATE hi = Some m2 /\
    date_of today0 v = Some d /\
    max w = m2 /\
    min w = (if date_gtb m1 m2 then m2 else m1) /\
    value w = (if date_ltb d (min w) then min w
               else if date_gtb d (max w) then max w else d).
Proof.
  unfold __init__. intros Hr.
  apply bind_returns in Hr as (? & w0 & H0 & Hr).
  apply bind_returns in Hr as (? & w1 & H1 & Hr).
  apply bind_returns in Hr as (? & w2 & H2 & Hr).
  apply bind_returns in Hr as (? & w3 & H3 & Hr).
  unfold on_change_set, modify in H0, Hr.
  injection H0 as _ <-. injection Hr as <-.
  match type of H1 with
  | min_set _ ?w0 = _ => pose proof (min_set_spec lo w0) as S1
  end.
  destruct (date_of MIN_DATE lo) as [m1|];
    [destruct (in_window m1)|]; try congruence; try (destruct S1; congruence).
  destruct S1 as (w1' & E1 & Hlo1 & Hhi1 & Hv1 & Htd1 & _).
  rewrite H1 in E1. injection E1 as _ <-.
  pose proof (max_set_spec hi w1) as S2.
  destruct (date_of MAX_DATE hi) as [m2|];
    [destruct (in_window m2)|]; try congruence; try (destruct S2; congruence).
  destruct S2 as (w2' & E2 & Hhi2 & Hlo2 & Hv2 & Htd2 & _).
  rewrite H2 in E2. injection E2 as _ <-.
  pose proof (value_set_spec v w2) as S3.
  rewrite Htd2, Htd1 in S3. simpl in S3.
  destruct (date_of today0 v) as [d|]; [|destruct S3; congruence].
  destruct S3 as (w3' & E3 & Hv3 & Hlo3 & Hhi3 & _).
  rewrite H3 in E3. injection E3 as _ <-.
  exists m1, m2, d. repeat split; try reflexivity.
  - change (max w3 = m2). congruence.
  - change (min w3 = if date_gtb m1 m2 then m2 else m1).
    now rewrite Hlo3, Hlo2, Hlo1.
  - change (value w3 = if date_ltb d (min w3) then min w3
                       else if date_gtb d (max w3) then max w3 else d).
    now rewrite Hv3, Hlo3, Hhi3.
Qed.

(** Construction returns when the bounds are dates of the supported window
    and the value is a date. *)
Lemma date_init_returns v lo hi h impl0 today0 m1 m2 d :
  date_of MIN_DATE lo = Some m1 -> in_window m1 = true ->
  date_of MAX_DATE hi = Some m2 -> in_window m2 = true ->
  date_of today0 v = Some d ->
  exists w, __init__ v lo hi h (created impl0 today0) = Returns tt w.
Proof.
  intros Hm1 Hw1 Hm2 Hw2 Hd. unfold __init__.
  unfold bind at 1, on_change_set at 1, modify at 1.
  set (w0 := mkDateInput _ _ _ _).
  pose proof (min_set_spec lo w0) as S1. rewrite Hm1, Hw1 in S1.
  destruct S1 as (w1 & E1 & _ & _ & _ & Htd1 & _).
  unfold bind at 1. rewrite E1.
  pose proof (max_set_spec hi w1) as S2. rewrite Hm2, Hw2 in S2.
  destruct S2 as (w2 & E2 & _ & _ & _ & Htd2 & _).
  unfold bind at 1. rewrite E2.
  pose proof (value_set_spec v w2) as S3.
  rewrite Htd2, Htd1 in S3. simpl in S3. rewrite Hd in S3.
  destruct S3 as (w3 & E3 & _).
  unfold bind at 1. rewrite E3.
  eexists. reflexivity.
Qed.

Lemma date_init_in_range v lo hi h impl0 today0 w :
  __init__ v lo hi h (created impl0 today0) = Returns tt w ->
  in_range w.
Proof.
  intros Hr. apply date_init_spec in Hr as (m1 & m2 & d & _ & _ & _ & Hhi & Hlo & Hv).
  unfold in_range. rewrite Hv, Hlo, Hhi. clear.
  dates.
Qed.

Lemma reachable_in_range w : reachable w -> in_range w.
Proof.
  induction 1 as [impl0 today0 v lo hi h w Hr|w m _ IH|w h _ IH].
  - exact (date_init_in_range _ _ _ _ _ _ _ Hr).
  - exact (run_in_range m w IH).
  - exact IH.
Qed.

(** While no handler is installed, an assignment invokes none. *)
Lemma run_quiet m w :
  _on_change w = None ->
  _on_change (final (run m w)) = None /\ fired (final (run m w)) = fired w.
Proof.
  intros Hw. destruct m as [x|x|x]; simpl.
  - pose proof (value_set_spec x w) as Hs.
    destruct (date_of (today w) x).
    + destruct Hs as (w1 & -> & _ & _ & _ & _ & Hh & Hf). simpl.
      split; [congruence|auto].
    + destruct Hs as (e & ->). auto.
  - pose proof (min_set_spec x w) as Hs.
    destruct (date_of MIN_DATE x) as [m|]; [destruct (in_window m)|].
    + destruct Hs as (w1 & -> & _ & _ & _ & _ & Hh & Hf). simpl.
      split; [congruence|auto].
    + rewrite Hs. auto.
    + destruct Hs as (e & ->). auto.
  - pose proof (max_set_spec x w) as Hs.
    destruct (date_of MAX_DATE x) as [m|]; [destruct (in_window m)|].
    + destruct Hs as (w1 & -> & _ & _ & _ & _ & Hh & Hf). simpl.
      split; [congruence|auto].
    + rewrite Hs. auto.
    + destruct Hs as (e & ->). auto.
Qed.

Lemma date_init_quiet v lo hi h impl0 today0 :
  fired (final (__init__ v lo hi h (created impl0 today0))) = [].
Proof.
  unfold __init__.
  rewrite final_bind. unfold on_change_set at 1, modify at 1.
  set (w0 := mkDateInput _ _ _ _).
  assert (_on_change w0 = None /\ fired w0 = []) as [H0 F0] by (split; reflexivity).
  clearbody w0.
  destruct (run_quiet (SetMin lo) w0 H0) as [H1 F1]. simpl in H1, F1.
  rewrite final_bind.
  destruct (min_set lo w0) as [[] w1|e w1]; simpl in *; [|congruence].
  destruct (run_quiet (SetMax hi) w1 H1) as [H2 F2]. simpl in H2, F2.
  rewrite final_bind.
  destruct (max_set hi w1) as [[] w2|e w2]; simpl in *; [|congruence].
  destruct (run_quiet (SetValue v) w2 H2) as [H3 F3]. simpl in H3, F3.
  rewrite final_bind.
  destruct (value_set v w2) as [[] w3|e w3]; simpl in *; congruence.
Qed.

End DateInputFacts.

(** * Properties of Slider, in any arithmetic *)

Module SliderFacts.

Import Slider.

Section Generic.

Context {F : Type} `{PyFloat F}.

Local Open Scope py_scope.

Lemma with_impl_same (s : Slider F) : with_impl (_impl s) s = s.
Proof. now destruct s. Qed.

(** [_set_value] rounds, moves the native slider and caches the value. *)
Lemma _set_value_eq v (s : Slider F) :
  _set_value v s =
  match _round_value v s with
  | inl e => Raises e s
  | inr r =>
      match IntSliderImpl.position r (_impl s) with
      | inl e => Raises e s
      | inr p =>
          Returns tt
            (with_impl
               (IntSliderImpl.store_value r
                  (IntSliderImpl.set_int_value p (_impl s))) s)
      end
  end.
Proof.
  unfold _set_value, bind, eval, impl, IntSliderImpl.set_value, bind, eval,
    modify.
  destruct (_round_value v s) as [e|r]; [reflexivity|].
  destruct (IntSliderImpl.position r (_impl s)) as [e|p]; simpl.
  - now rewrite with_impl_same.
  - reflexivity.
Qed.

(** The scope of a programmatic change: the block runs with the handler
    disabled; if it returns, the handler is put back and called once when
    the value is no longer the one recorded at entry. *)
Lemma _programmatic_change_eq body (s : Slider F) :
  _programmatic_change body s =
  match body (value s) (store_on_change None s) with
  | Returns _ s1 =>
      let s2 := store_on_change (_on_change s) s1 in
      Returns tt (if fne (value s2) (value s) then call (_on_change s) s2
                  else s2)
  | Raises e s1 => Raises e s1
  end.
Proof.
  unfold _programmatic_change, bind, gets, on_change_set, modify, ret,
    wrapped_handler.
  destruct (body (value s) (store_on_change None s)) as [[] s1|e s1];
    [|reflexivity].
  simpl. now destruct (fne _ _).
Qed.

Lemma quiet_bind {A B : Type} (c : M (Slider F) A) (k : A -> M (Slider F) B) :
  quiet c -> (forall a, quiet (k a)) -> quiet (bind c k).
Proof.
  intros Hc Hk s Hs. rewrite final_bind.
  specialize (Hc s Hs).
  destruct (c s) as [a s1|e s1]; simpl in *; [|exact Hc].
  destruct Hc as [H1 F1]. destruct (Hk a s1 H1) as [H2 F2].
  split; congruence.
Qed.

Lemma quiet_ret {A : Type} (a : A) : quiet (F:=F) (ret a).
Proof. intros s Hs. auto. Qed.

Lemma quiet_raise {A : Type} e : quiet (F:=F) (A:=A) (raise e).
Proof. intros s Hs. auto. Qed.

Lemma quiet_gets {A : Type} (f : Slider F -> A) : quiet (gets f).
Proof. intros s Hs. auto. Qed.

Lemma quiet_eval {A : Type} (f : Slider F -> res A) : quiet (eval f).
Proof. intros s Hs. unfold eval. destruct (f s); auto. Qed.

Lemma quiet_impl {A : Type} (c : M (IntSliderImpl.IntSliderImpl F) A) :
  quiet (impl c).
Proof.
  intros s Hs. unfold impl. destruct (c (_impl s)); auto.
Qed.

Lemma quiet_on_change_none : quiet (F:=F) (on_change_set None).
Proof. intros s Hs. auto. Qed.

Lemma quiet__set_value v : quiet (_set_value v).
Proof.
  unfold _set_value. apply quiet_bind; [apply quiet_eval|].
  intros a. apply quiet_impl.
Qed.

Lemma quiet__programmatic_change body :
  (forall old, quiet (body old)) -> quiet (_programmatic_change body).
Proof.
  intros Hb s Hs. rewrite _programmatic_change_eq.
  destruct (Hb (value s) (store_on_change None s) eq_refl) as [H1 F1].
  destruct (body (value s) (store_on_change None s)) as [[] s1|e s1];
    simpl in *; [|auto].
  rewrite Hs. destruct (fne _ _); simpl; auto.
Qed.

Ltac quiet :=
  repeat first
    [ apply quiet__programmatic_change
    | apply quiet__set_value
    | apply quiet_bind
    | apply quiet_impl
    | apply quiet_ret
    | apply quiet_raise
    | apply quiet_gets
    | apply quiet_eval
    | apply quiet_on_change_none
    | match goal with
      | |- forall _, _ => intro
      | |- quiet (if ?b then _ else _) => destruct b
      | |- quiet (match ?x with _ => _ end) => destruct x
      end ].

Lemma quiet_value_set v : quiet (value_set v).
Proof. unfold value_set. quiet. Qed.

Lemma quiet_min_set v : quiet (min_set v).
Proof. unfold min_set. quiet. Qed.

Lemma quiet_max_set v : quiet (max_set v).
Proof. unfold max_set. quiet. Qed.

Lemma quiet_tick_count_set n : quiet (tick_count_set n).
Proof.
  unfold tick_count_set. quiet.
Qed.

Lemma quiet_run m : quiet (run m).
Proof.
  destruct m; simpl;
    [apply quiet_value_set|apply quiet_min_set|apply quiet_max_set
    |apply quiet_tick_count_set].
Qed.

Lemma quiet_tick_value_set t : quiet (tick_value_set t).
Proof.
  unfold tick_value_set. quiet.
Qed.

Lemma step_quiet {A B : Type} (c : M (Slider F) A) (k : A -> M (Slider F) B) s :
  quiet c -> _on_change s = None -> fired s = [] ->
  (forall a s1, _on_change s1 = None -> fired s1 = [] ->
                fired (final (k a s1)) = []) ->
  fired (final (bind c k s)) = [].
Proof.
  intros Hc Hs Fs Hk. rewrite final_bind. destruct (Hc s Hs) as [H1 F1].
  destruct (c s) as [a s1|e s1]; simpl in *.
  - apply Hk; congruence.
  - congruence.
Qed.

(** Construction invokes no handler. *)
Lemma slider_init_quiet v lo hi n h p r b native0 :
  fired (final (__init__ v lo hi n h p r b (created native0))) = [].
Proof.
  unfold __init__.
  apply step_quiet; [apply quiet_on_change_none|reflexivity|reflexivity|].
  intros _ s0 H0 F0.
  apply step_quiet; [apply quiet_min_set|assumption|assumption|].
  intros _ s1 H1 F1.
  apply step_quiet; [apply quiet_max_set|assumption|assumption|].
  intros _ s2 H2 F2.
  apply step_quiet; [apply quiet_tick_count_set|assumption|assumption|].
  intros _ s3 H3 F3.
  apply step_quiet; [destruct v; quiet|assumption|assumption|].
  intros v' s4 H4 F4.
  apply step_quiet; [apply quiet_value_set|assumption|assumption|].
  intros _ s5 H5 F5.
  exact F5.
Qed.

(** An assignment made while a handler is installed calls it once when the
    value read afterwards is not the one read before, and not at all
    otherwise, or when the assignment raises. *)
Lemma scope_fires body (s : Slider F) h :
  (forall old, quiet (body old)) ->
  _on_change s = Some h ->
  match _programmatic_change body s with
  | Returns _ s' =>
      fired s' = (if fne (value s') (value s) then h :: fired s else fired s)
  | Raises _ s' => fired s' = fired s
  end.
Proof.
  intros Hb Hs. rewrite _programmatic_change_eq.
  destruct (Hb (value s) (store_on_change None s) eq_refl) as [_ F1].
  destruct (body (value s) (store_on_change None s)) as [[] s1|e s1];
    simpl in *; [|exact F1].
  rewrite Hs.
  change (value (store_on_change (Some h) s1)) with (value s1).
  destruct (fne (value s1) (value s)) eqn:Hne; simpl.
  - change (value (call (Some h) (store_on_change (Some h) s1)))
      with (value s1).
    rewrite Hne. unfold call_handler. now rewrite F1.
  - change (value (store_on_change (Some h) s1)) with (value s1).
    now rewrite Hne.
Qed.

Lemma run_fires m (s : Slider F) h :
  _on_change s = Some h ->
  match run m s with
  | Returns _ s' =>
      fired s' = (if fne (value s') (value s) then h :: fired s else fired s)
  | Raises _ s' => fired s' = fired s
  end.
Proof.
  intros Hs. destruct m as [v|v|v|n]; simpl.
  - unfold value_set, bind at 1, gets at 1.
    apply scope_fires; [intros old; quiet|assumption].
  - apply scope_fires; [intros old; quiet|assumption].
  - apply scope_fires; [intros old; quiet|assumption].
  - unfold tick_count_set, bind at 1.
    destruct n as [k|]; [destruct (k <? 2)|]; simpl; try reflexivity.
    all: apply scope_fires; [intros old; quiet|assumption].
Qed.

(** What [_set_value] leaves in the backend. *)
Lemma _set_value_returns v (s s' : Slider F) :
  _set_value v s = Returns tt s' ->
  exists r p,
    _round_value v s = inr r /\
    IntSliderImpl.position r (_impl s) = inr p /\
    s' = with_impl (IntSliderImpl.store_value r
                      (IntSliderImpl.set_int_value p (_impl s))) s.
Proof.
  rewrite _set_value_eq.
  destruct (_round_value v s) as [e|r]; [discriminate|].
  destruct (IntSliderImpl.position r (_impl s)) as [e|p] eqn:Hp;
    [discriminate|].
  intros [= <-]. exists r, p. auto.
Qed.

(** What a returning scope leaves in the backend is what its block left. *)
Lemma scope_returns body (s s' : Slider F) :
  _programmatic_change body s = Returns tt s' ->
  exists s1,
    body (value s) (store_on_change None s) = Returns tt s1 /\
    _impl s' = _impl s1.
Proof.
  rewrite _programmatic_change_eq.
  destruct (body (value s) (store_on_change None s)) as [[] s1|e s1];
    [|discriminate].
  intros [= <-]. exists s1. split; [reflexivity|].
  simpl. now destruct (fne _ _).
Qed.

Lemma value_set_returns v (s s' : Slider F) :
  value_set v s = Returns tt s' ->
  exists r p,
    _round_value (clip v s) s = inr r /\
    IntSliderImpl.position r (_impl s) = inr p /\
    _impl s' = IntSliderImpl.store_value r
                 (IntSliderImpl.set_int_value p (_impl s)).
Proof.
  unfold value_set, bind at 1, gets at 1. intros Hr.
  apply scope_returns in Hr as (s1 & Hb & ->).
  apply _set_value_returns in Hb as (r & p & Hr & Hp & ->).
  exists r, p. auto.
Qed.

Lemma min_set_returns v (s s' : Slider F) :
  min_set v s = Returns tt s' ->
  let hi := if flt (max s) v then v else max s in
  let i1 := IntSliderImpl.store_min v (IntSliderImpl.store_max hi (_impl s)) in
  exists r p,
    _round_value (py_max v (py_min hi (value s))) (with_impl i1 s) = inr r /\
    IntSliderImpl.position r i1 = inr p /\
    _impl s' = IntSliderImpl.store_value r
                 (IntSliderImpl.set_int_value p i1).
Proof.
  unfold min_set. intros Hr.
  apply scope_returns in Hr as (s1 & Hb & ->).
  unfold bind at 1, gets at 1 in Hb.
  change (max (store_on_change None s)) with (max s) in Hb.
  destruct (flt (max s) v) eqn:Hc;
    cbv [bind impl IntSliderImpl.set_max IntSliderImpl.set_min modify ret]
      in Hb;
    apply _set_value_returns in Hb as (r & p & Hr & Hp & ->);
    exists r, p; (split; [exact Hr|split; [exact Hp|reflexivity]]).
Qed.

Lemma max_set_returns v (s s' : Slider F) :
  max_set v s = Returns tt s' ->
  let lo := if fgt (min s) v then v else min s in
  let i1 := IntSliderImpl.store_max v (IntSliderImpl.store_min lo (_impl s)) in
  exists r p,
    _round_value (py_max lo (py_min v (value s))) (with_impl i1 s) = inr r /\
    IntSliderImpl.position r i1 = inr p /\
    _impl s' = IntSliderImpl.store_value r
                 (IntSliderImpl.set_int_value p i1).
Proof.
  unfold max_set. intros Hr.
  apply scope_returns in Hr as (s1 & Hb & ->).
  unfold bind at 1, gets at 1 in Hb.
  change (min (store_on_change None s)) with (min s) in Hb.
  destruct (fgt (min s) v) eqn:Hc;
    cbv [bind impl IntSliderImpl.set_max IntSliderImpl.set_min modify ret]
      in Hb;
    apply _set_value_returns in Hb as (r & p & Hr & Hp & ->);
    exists r, p; (split; [exact Hr|split; [exact Hp|reflexivity]]).
Qed.

(** The backend once [set_tick_count] has been called. *)
Lemma set_tick_count_eq n (i : IntSliderImpl.IntSliderImpl F) :
  IntSliderImpl.set_tick_count n i =
  Returns tt
    (IntSliderImpl.mkImpl (IntSliderImpl.value i) (IntSliderImpl.min i)
       (IntSliderImpl.max i)
       (match n with Some _ => true | None => false end)
       (IntSliderImpl.mkNative
          (IntSliderImpl.int_value (IntSliderImpl.native i))
          (match n with
           | Some k => k - 1
           | None => IntSliderImpl.CONTINUOUS_MAX
           end)
          (match n with Some _ => true | None => false end))).
Proof. destruct n; reflexivity. Qed.

Lemma tick_count_set_returns n (s s' : Slider F) :
  tick_count_set n s = Returns tt s' ->
  match n with Some k => 2 <= k | None => True end /\
  exists i1,
    IntSliderImpl.set_tick_count n (_impl s) = Returns tt i1 /\
    exists r p,
      _round_value (clip (value s) (with_impl i1 s)) (with_impl i1 s)
        = inr r /\
      IntSliderImpl.position r i1 = inr p /\
      _impl s' = IntSliderImpl.store_value r
                   (IntSliderImpl.set_int_value p i1).
Proof.
  unfold tick_count_set. intros Hr.
  apply bind_returns in Hr as ([] & s0 & Hv & Hr).
  assert (s0 = s /\ match n with Some k => 2 <= k | None => True end)
    as [-> Hn].
  { destruct n as [k|]; [|now injection Hv as <-].
    destruct (k <? 2) eqn:Hk; [discriminate|].
    injection Hv as <-. split; [reflexivity|]. apply Z.ltb_ge in Hk. lia. }
  split; [exact Hn|].
  apply scope_returns in Hr as (s1 & Hb & ->).
  apply bind_returns in Hb as ([] & s2 & Hi & Hb).
  unfold impl in Hi. rewrite set_tick_count_eq in *.
  injection Hi as <-.
  eexists. split; [reflexivity|].
  apply value_set_returns in Hb as (r & p & Hr & Hp & ->).
  exists r, p. split; [exact Hr|split; [exact Hp|reflexivity]].
Qed.


(** A change event of the native widget reaches only the handler that is
    installed at that time. *)
Lemma quiet_user_moves p : quiet (user_moves p).
Proof.
  intros s Hs. unfold user_moves, impl_on_change.
  cbv [bind impl modify eval gets].
  destruct (IntSliderImpl.native_value _) as [e|v]; simpl; [auto|].
  rewrite Hs. auto.
Qed.

Lemma quiet_occur e : quiet (occur e).
Proof.
  destruct e; simpl; try apply quiet_impl. apply quiet_user_moves.
Qed.

Lemma quiet_perform events : quiet (perform events).
Proof.
  induction events as [|e events IH]; simpl.
  - apply quiet_ret.
  - apply quiet_bind; [apply quiet_occur|intros _; exact IH].
Qed.

(** The scope of a programmatic change around a block that only ever
    reaches the installed handler: if it returns, the handler is installed
    again and was called once when the value read at exit is not the one
    recorded at entry, and not at all otherwise; if the block raises, no
    handler was called, and none is installed. *)
Lemma scope_outcome body (s : Slider F) :
  (forall old, quiet (body old)) ->
  match _programmatic_change body s with
  | Returns _ s' =>
      _on_change s' = _on_change s /\
      fired s' = (if fne (value s') (value s)
                  then call_handler (_on_change s) (fired s)
                  else fired s)
  | Raises _ s' => fired s' = fired s /\ _on_change s' = None
  end.
Proof.
  intros Hb. rewrite _programmatic_change_eq.
  destruct (Hb (value s) (store_on_change None s) eq_refl) as [H1 F1].
  destruct (body (value s) (store_on_change None s)) as [[] s1|e s1];
    simpl in *; [|auto].
  change (value (store_on_change (_on_change s) s1)) with (value s1).
  destruct (fne (value s1) (value s)) eqn:Hne; simpl.
  - change (value (call (_on_change s) (store_on_change (_on_change s) s1)))
      with (value s1).
    rewrite Hne, F1. auto.
  - change (value (store_on_change (_on_change s) s1)) with (value s1).
    rewrite Hne. auto.
Qed.

Lemma run_outcome m (s : Slider F) :
  match run m s with
  | Returns _ s' =>
      _on_change s' = _on_change s /\
      fired s' = (if fne (value s') (value s)
                  then call_handler (_on_change s) (fired s)
                  else fired s)
  | Raises _ s' => fired s' = fired s
  end.
Proof.
  assert (forall body,
            (forall old, quiet (body old)) ->
            match _programmatic_change body s with
            | Returns _ s' =>
                _on_change s' = _on_change s /\
                fired s' = (if fne (value s') (value s)
                            then call_handler (_on_change s) (fired s)
                            else fired s)
            | Raises _ s' => fired s' = fired s
            end) as Hscope.
  { intros body Hb. pose proof (scope_outcome body s Hb) as Ho.
    destruct (_programmatic_change body s); [exact Ho|exact (proj1 Ho)]. }
  destruct m as [v|v|v|n]; simpl.
  - unfold value_set, bind at 1, gets at 1. apply Hscope. intros old; quiet.
  - apply Hscope. intros old; quiet.
  - apply Hscope. intros old; quiet.
  - unfold tick_count_set, bind at 1.
    destruct n as [k|]; [destruct (k <? 2)|]; simpl; try reflexivity.
    all: apply Hscope; intros old; quiet.
Qed.

End Generic.

Lemma continuous_round {F : Type} `{PyFloat F} (s : Slider.Slider F) v :
  tick_count s = None -> _round_value v s = inr v.
Proof.
  intros Hn. unfold _round_value, tick_step. now rewrite Hn.
Qed.

Lemma tick_count_impl {F : Type} `{PyFloat F} (s1 s2 : Slider.Slider F) :
  IntSliderImpl.discrete (_impl s1) = IntSliderImpl.discrete (_impl s2) ->
  IntSliderImpl.int_max (IntSliderImpl.native (_impl s1))
    = IntSliderImpl.int_max (IntSliderImpl.native (_impl s2)) ->
  tick_count s1 = tick_count s2.
Proof.
  unfold tick_count, IntSliderImpl.get_tick_count, IntSliderImpl.get_int_max.
  now intros -> ->.
Qed.

(** The tick count after an assignment. *)
Lemma run_tick_count {F : Type} `{PyFloat F} m (s s' : Slider.Slider F) :
  run m s = Returns tt s' ->
  tick_count s' = match m with
                  | SetTickCount n => n
                  | _ => tick_count s
                  end.
Proof.
  intros Hr. destruct m as [v|v|v|n]; simpl in Hr.
  - apply value_set_returns in Hr as (r & p & _ & _ & Hi).
    apply tick_count_impl; now rewrite Hi.
  - apply min_set_returns in Hr as (r & p & _ & _ & Hi).
    apply tick_count_impl; now rewrite Hi.
  - apply max_set_returns in Hr as (r & p & _ & _ & Hi).
    apply tick_count_impl; now rewrite Hi.
  - apply tick_count_set_returns in Hr as (_ & i1 & Hi1 & r & p & _ & _ & Hi).
    rewrite set_tick_count_eq in Hi1. injection Hi1 as <-.
    unfold tick_count, IntSliderImpl.get_tick_count,
      IntSliderImpl.get_int_max.
    rewrite Hi. destruct n as [k|]; simpl; [|reflexivity].
    f_equal. lia.
Qed.

End SliderFacts.

(** * Further properties of Slider, in any arithmetic *)

Module SliderMore.

Import Slider SliderFacts.

Section Generic.

Context {F : Type} `{PyFloat F}.

Local Open Scope py_scope.

(** The backend's [set_value] raises before it changes anything. *)
Lemma impl_set_value_raises v (i i' : IntSliderImpl.IntSliderImpl F) e :
  IntSliderImpl.set_value v i = Raises e i' -> i' = i.
Proof.
  unfold IntSliderImpl.set_value, bind, eval, modify.
  destruct (IntSliderImpl.position v i); [|discriminate].
  now intros [= _ <-].
Qed.

Lemma _set_value_raises v (s s' : Slider F) e :
  _set_value v s = Raises e s' -> s' = s.
Proof.
  rewrite _set_value_eq.
  destruct (_round_value v s) as [e1|r]; [now intros [= _ <-]|].
  destruct (IntSliderImpl.position r (_impl s)) as [e1|p];
    [now intros [= _ <-]|discriminate].
Qed.

(** A scope raises exactly when its block does, and is then left as the
    block left it: the handler disabled. *)
Lemma scope_raises body (s s' : Slider F) e :
  _programmatic_change body s = Raises e s' ->
  body (value s) (store_on_change None s) = Raises e s'.
Proof.
  rewrite _programmatic_change_eq.
  destruct (body (value s) (store_on_change None s)) as [[] s1|e1 s1];
    [discriminate|]. now intros [= -> ->].
Qed.

Lemma value_set_raises v (s s' : Slider F) e :
  value_set v s = Raises e s' -> s' = store_on_change None s.
Proof.
  unfold value_set, bind at 1, gets at 1. intros Hr.
  apply scope_raises in Hr. now apply _set_value_raises in Hr.
Qed.

Lemma min_set_raises v (s s' : Slider F) e :
  min_set v s = Raises e s' ->
  value s' = value s /\ fired s' = fired s /\ _on_change s' = None.
Proof.
  unfold min_set. intros Hr. apply scope_raises in Hr.
  unfold bind at 1, gets at 1 in Hr.
  destruct (flt (max (store_on_change None s)) v);
    cbv [bind impl IntSliderImpl.set_max IntSliderImpl.set_min modify ret]
      in Hr;
    apply _set_value_raises in Hr; subst s'; repeat split.
Qed.

Lemma max_set_raises v (s s' : Slider F) e :
  max_set v s = Raises e s' ->
  value s' = value s /\ fired s' = fired s /\ _on_change s' = None.
Proof.
  unfold max_set. intros Hr. apply scope_raises in Hr.
  unfold bind at 1, gets at 1 in Hr.
  destruct (fgt (min (store_on_change None s)) v);
    cbv [bind impl IntSliderImpl.set_max IntSliderImpl.set_min modify ret]
      in Hr;
    apply _set_value_raises in Hr; subst s'; repeat split.
Qed.

Lemma tick_count_set_raises n (s s' : Slider F) e :
  tick_count_set n s = Raises e s' ->
  (s' = s /\ e = ValueError /\ exists k, n = Some k /\ k < 2) \/
  (value s' = value s /\ fired s' = fired s /\ _on_change s' = None).
Proof.
  unfold tick_count_set. intros Hr. unfold bind at 1 in Hr.
  destruct n as [k|].
  - destruct (k <? 2) eqn:Hk.
    + left. injection Hr as <- <-. repeat split.
      exists k. split; [reflexivity|]. now apply Z.ltb_lt.
    + right. simpl in Hr. apply scope_raises in Hr.
      unfold bind at 1, impl at 1 in Hr. rewrite set_tick_count_eq in Hr.
      apply value_set_raises in Hr. subst s'. repeat split.
  - right. simpl in Hr. apply scope_raises in Hr.
    unfold bind at 1, impl at 1 in Hr. rewrite set_tick_count_eq in Hr.
    apply value_set_raises in Hr. subst s'. repeat split.
Qed.

(** The bounds after an assignment to [min] or [max], whether it returned
    or raised: they are stored before the value is refreshed. *)
Lemma min_set_final v (s : Slider F) :
  min (final (min_set v s)) = v /\
  max (final (min_set v s)) = (if flt (max s) v then v else max s).
Proof.
  destruct (min_set v s) as [[] s'|e s'] eqn:Hr; simpl.
  - apply min_set_returns in Hr as (r & p & _ & _ & Hi).
    unfold min, max. rewrite Hi. split; reflexivity.
  - unfold min_set in Hr. apply scope_raises in Hr.
    unfold bind at 1, gets at 1 in Hr.
    change (max (store_on_change None s)) with (max s) in Hr.
    destruct (flt (max s) v);
      cbv [bind impl IntSliderImpl.set_max IntSliderImpl.set_min modify ret]
        in Hr;
      apply _set_value_raises in Hr; subst s'; split; reflexivity.
Qed.

Lemma max_set_final v (s : Slider F) :
  max (final (max_set v s)) = v /\
  min (final (max_set v s)) = (if fgt (min s) v then v else min s).
Proof.
  destruct (max_set v s) as [[] s'|e s'] eqn:Hr; simpl.
  - apply max_set_returns in Hr as (r & p & _ & _ & Hi).
    unfold min, max. rewrite Hi. split; reflexivity.
  - unfold max_set in Hr. apply scope_raises in Hr.
    unfold bind at 1, gets at 1 in Hr.
    change (min (store_on_change None s)) with (min s) in Hr.
    destruct (fgt (min s) v);
      cbv [bind impl IntSliderImpl.set_max IntSliderImpl.set_min modify ret]
        in Hr;
      apply _set_value_raises in Hr; subst s'; split; reflexivity.
Qed.

(** The [value] setter, spelled out: clip, round to a tick, move the
    native slider and cache the value, inside the scope. *)
Lemma value_set_eq v (s : Slider F) :
  value_set v s =
  match _round_value (clip v s) s with
  | inl e => Raises e (store_on_change None s)
  | inr r =>
      match IntSliderImpl.position r (_impl s) with
      | inl e => Raises e (store_on_change None s)
      | inr p =>
          let s2 :=
            store_on_change (_on_change s)
              (with_impl
                 (IntSliderImpl.store_value r
                    (IntSliderImpl.set_int_value p (_impl s)))
                 (store_on_change None s)) in
          Returns tt (if fne r (value s) then call (_on_change s) s2 else s2)
      end
  end.
Proof.
  unfold value_set, bind at 1, gets at 1.
  rewrite _programmatic_change_eq, _set_value_eq.
  change (_round_value (clip v s) (store_on_change None s))
    with (_round_value (clip v s) s).
  destruct (_round_value (clip v s) s) as [e|r]; [reflexivity|].
  change (_impl (store_on_change None s)) with (_impl s).
  destruct (IntSliderImpl.position r (_impl s)) as [e|p]; reflexivity.
Qed.




End Generic.

End SliderMore.

(** * binary64 comparisons *)

Module Float64Facts.

Lemma SFcompare_swap a b :
  SFcompare b a = option_map CompOpp (SFcompare a b).
Proof.
  destruct a as [sa|sa| |sa ma ea], b as [sb|sb| |sb mb eb]; simpl;
    try reflexivity;
    try (destruct sa; reflexivity);
    try (destruct sb; reflexivity);
    try (destruct sa, sb; reflexivity).
  rewrite (Z.compare_antisym ea eb).
  destruct sa, sb; simpl; try reflexivity;
    destruct (ea ?= eb)%Z; simpl; try reflexivity.
  - rewrite CompOpp_involutive.
    now rewrite (Pos.compare_cont_antisym mb ma Eq).
  - now rewrite (Pos.compare_cont_antisym ma mb Eq).
Qed.

Lemma SFcompare_same a : a <> S754_nan -> SFcompare a a = Some Eq.
Proof.
  destruct a as [sa|sa| |sa ma ea]; simpl; intros Ha;
    try reflexivity; try (destruct sa; reflexivity); try congruence.
  rewrite Z.compare_refl, Pos.compare_cont_refl. now destruct sa.
Qed.

Lemma SFcompare_nan a b :
  SFcompare a b = None <-> a = S754_nan \/ b = S754_nan.
Proof.
  destruct a as [sa|sa| |sa ma ea], b as [sb|sb| |sb mb eb]; simpl;
    split; intros Hc; try discriminate; auto;
    destruct Hc; discriminate.
Qed.

(** [x == x] says that [x] is not a NaN. *)
Lemma eqb_self x : (x =? x)%float = true <-> Prim2SF x <> S754_nan.
Proof.
  rewrite eqb_spec. unfold SFeqb. split.
  - intros Hc Hn. rewrite Hn in Hc. discriminate.
  - intros Hn. now rewrite (SFcompare_same _ Hn).
Qed.

Lemma leb_not_nan x y :
  (x <=? y)%float = true -> (x =? x)%float = true /\ (y =? y)%float = true.
Proof.
  rewrite leb_spec, !eqb_self. unfold SFleb. intros Hc.
  split; intros Hn; rewrite Hn in Hc; simpl in Hc;
    [|destruct (Prim2SF x)]; discriminate.
Qed.

Lemma ltb_leb x y : (x <? y)%float = true -> (x <=? y)%float = true.
Proof.
  rewrite ltb_spec, leb_spec. unfold SFltb, SFleb.
  now destruct (SFcompare _ _) as [[]|].
Qed.

Lemma leb_refl x : (x =? x)%float = true -> (x <=? x)%float = true.
Proof.
  rewrite eqb_self, leb_spec. unfold SFleb. intros Hn.
  now rewrite (SFcompare_same _ Hn).
Qed.

Lemma not_ltb_leb x y :
  (x =? x)%float = true -> (y =? y)%float = true ->
  (x <? y)%float = false -> (y <=? x)%float = true.
Proof.
  rewrite !eqb_self, ltb_spec, leb_spec. unfold SFltb, SFleb.
  intros Hx Hy. rewrite (SFcompare_swap (Prim2SF x) (Prim2SF y)).
  destruct (SFcompare (Prim2SF x) (Prim2SF y)) as [[]|] eqn:Hc; simpl;
    try reflexivity; try discriminate.
  apply SFcompare_nan in Hc. tauto.
Qed.

Ltac cmp_cases :=
  repeat match goal with
         | H : context [Z.compare ?a ?b] |- _ =>
             destruct (Z.compare_spec a b); simpl in H
         | H : context [PosDef.Pos.compare_cont Eq ?a ?b] |- _ =>
             change (PosDef.Pos.compare_cont Eq a b)
               with (Pos.compare a b) in H;
             destruct (Pos.compare_spec a b); simpl in H
         | |- context [Z.compare ?a ?b] =>
             destruct (Z.compare_spec a b); simpl
         | |- context [PosDef.Pos.compare_cont Eq ?a ?b] =>
             change (PosDef.Pos.compare_cont Eq a b) with (Pos.compare a b);
             destruct (Pos.compare_spec a b); simpl
         end.

Lemma SFleb_trans a b c :
  SFleb a b = true -> SFleb b c = true -> SFleb a c = true.
Proof.
  unfold SFleb.
  destruct a as [sa|sa| |sa ma ea], b as [sb|sb| |sb mb eb],
    c as [sc|sc| |sc mc ec]; simpl;
    repeat match goal with s : bool |- _ => destruct s end; simpl;
    try discriminate; try reflexivity; intros H1 H2; cmp_cases;
    try discriminate; try reflexivity; subst; lia.
Qed.

Lemma SF_lt_le_lt a b c :
  SFltb a b = true -> SFleb b c = true -> SFltb c a = true -> False.
Proof.
  unfold SFltb, SFleb.
  destruct a as [sa|sa| |sa ma ea], b as [sb|sb| |sb mb eb],
    c as [sc|sc| |sc mc ec]; simpl;
    repeat match goal with s : bool |- _ => destruct s end; simpl;
    try discriminate; intros H1 H2 H3; cmp_cases;
    try discriminate; subst; lia.
Qed.

Lemma leb_trans x y z :
  (x <=? y)%float = true -> (y <=? z)%float = true ->
  (x <=? z)%float = true.
Proof. rewrite !leb_spec. apply SFleb_trans. Qed.

(** No number is below the lower and above the upper of two ordered
    bounds. *)
Lemma not_below_and_above x lo hi :
  (x <? lo)%float = true -> (lo <=? hi)%float = true ->
  (hi <? x)%float = true -> False.
Proof. rewrite !ltb_spec, leb_spec. apply SF_lt_le_lt. Qed.

End Float64Facts.

(** * binary64: signs of differences and quotients *)

Module Float64Sign.

Import Float64 Float64Facts.














End Float64Sign.

(** * The slider in binary64 *)

Module SliderFloat.

Import Slider Float64 Float64Facts SliderFacts.

(** [in_range], for the backend fields. *)
Lemma in_range_fields (s : Slider float) lo hi v :
  min s = lo -> max s = hi -> value s = v ->
  (lo <=? v)%float = true -> (v <=? hi)%float = true ->
  in_range s.
Proof. intros <- <- <-. now split. Qed.

(** Clipping a number that is not a NaN between ordered bounds. *)
Lemma clip_in_range (s : Slider float) v :
  (min s <=? max s)%float = true -> (v =? v)%float = true ->
  (min s <=? clip v s)%float = true /\ (clip v s <=? max s)%float = true.
Proof.
  intros Hs Hv. destruct (leb_not_nan _ _ Hs) as [Hlo Hhi].
  unfold clip, fgt. simpl.
  destruct (v <? min s)%float eqn:H1.
  - split; [now apply leb_refl|exact Hs].
  - destruct (max s <? v)%float eqn:H2.
    + split; [exact Hs|now apply leb_refl].
    + split; now apply not_ltb_leb.
Qed.

(** [max(lo, min(hi, old))] lies between ordered bounds, whatever [old]. *)
Lemma py_clip_in_range lo hi old :
  (lo <=? hi)%float = true ->
  (lo <=? py_max lo (py_min hi old))%float = true /\
  (py_max lo (py_min hi old) <=? hi)%float = true.
Proof.
  intros Hs. destruct (leb_not_nan _ _ Hs) as [Hlo Hhi].
  unfold py_max, py_min, fgt. simpl.
  destruct (old <? hi)%float eqn:H1.
  - destruct (lo <? old)%float eqn:H2.
    + split; now apply ltb_leb.
    + split; [now apply leb_refl|exact Hs].
  - destruct (lo <? hi)%float eqn:H2.
    + split; [exact Hs|now apply leb_refl].
    + split; [now apply leb_refl|exact Hs].
Qed.

(** One assignment to a continuous slider, from a state with ordered bounds
    and a value that is a number. *)
Lemma continuous_step m (s s' : Slider float) :
  (min s <=? max s)%float = true ->
  (value s =? value s)%float = true ->
  match m with
  | SetValue v | SetMin v | SetMax v => (v =? v)%float = true
  | SetTickCount _ => True
  end ->
  run m s = Returns tt s' ->
  tick_count s' = None ->
  in_range s' /\ (min s' <=? max s')%float = true.
Proof.
  intros Hs Hv Hm Hr Hn.
  destruct (leb_not_nan _ _ Hs) as [Hlo Hhi].
  pose proof (run_tick_count m s s' Hr) as Ht. rewrite Hn in Ht.
  destruct m as [v|v|v|n]; simpl in Hr.
  - apply value_set_returns in Hr as (r & p & Hr & _ & Hi).
    rewrite (continuous_round _ _ (eq_sym Ht)) in Hr. injection Hr as <-.
    destruct (clip_in_range s v Hs Hm) as [H1 H2].
    split.
    + apply (in_range_fields s' (min s) (max s) (clip v s));
        try assumption; unfold min, max, value; now rewrite Hi.
    + unfold min, max. now rewrite Hi.
  - apply min_set_returns in Hr as (r & p & Hr & _ & Hi).
    rewrite continuous_round in Hr by (symmetry; exact Ht).
    injection Hr as <-.
    set (hi := if flt (max s) v then v else max s) in *.
    assert ((v <=? hi)%float = true) as Hb.
    { subst hi. simpl. destruct (max s <? v)%float eqn:Hc.
      - now apply leb_refl.
      - now apply not_ltb_leb. }
    destruct (py_clip_in_range v hi (value s) Hb) as [H1 H2].
    split.
    + apply (in_range_fields s' v hi (py_max v (py_min hi (value s))));
        try assumption; unfold min, max, value; now rewrite Hi.
    + unfold min, max. now rewrite Hi.
  - apply max_set_returns in Hr as (r & p & Hr & _ & Hi).
    rewrite continuous_round in Hr by (symmetry; exact Ht).
    injection Hr as <-.
    set (lo := if fgt (min s) v then v else min s) in *.
    assert ((lo <=? v)%float = true) as Hb.
    { subst lo. unfold fgt. simpl. destruct (v <? min s)%float eqn:Hc.
      - now apply leb_refl.
      - now apply not_ltb_leb. }
    destruct (py_clip_in_range lo v (value s) Hb) as [H1 H2].
    split.
    + apply (in_range_fields s' lo v (py_max lo (py_min v (value s))));
        try assumption; unfold min, max, value; now rewrite Hi.
    + unfold min, max. now rewrite Hi.
  - apply tick_count_set_returns in Hr as (_ & i1 & Hi1 & r & p & Hr & _ & Hi).
    rewrite set_tick_count_eq in Hi1. injection Hi1 as <-. subst n.
    rewrite continuous_round in Hr by reflexivity.
    injection Hr as <-.
    match type of Hi with
    | context [clip _ ?s1] =>
        destruct (clip_in_range s1 (value s) Hs Hv) as [H1 H2];
        split;
        [apply (in_range_fields s' (min s) (max s) (clip (value s) s1));
           try assumption; unfold min, max, value; now rewrite Hi
        |unfold min, max; now rewrite Hi]
    end.
Qed.

(** Construction of a continuous slider from numbers. *)
Lemma continuous_init v lo hi h p r b native0 (s : Slider float) :
  (lo =? lo)%float = true -> (hi =? hi)%float = true ->
  match v with
  | Some x => (x =? x)%float = true
  | None => forall x, truediv_int (fadd lo hi) 2 = inr x -> (x =? x)%float = true
  end ->
  __init__ v lo hi None h p r b (created native0) = Returns tt s ->
  in_range s.
Proof.
  intros Hlo Hhi Hv Hr. unfold __init__ in Hr.
  apply bind_returns in Hr as ([] & s0 & H0 & Hr).
  injection H0 as <-.
  apply bind_returns in Hr as ([] & s1 & H1 & Hr).
  apply bind_returns in Hr as ([] & s2 & H2 & Hr).
  apply bind_returns in Hr as ([] & s3 & H3 & Hr).
  apply bind_returns in Hr as (x & s4 & H4 & Hr).
  apply bind_returns in Hr as ([] & s5 & H5 & Hr).
  pose proof (run_tick_count (SetMin lo) _ _ H1) as T1.
  pose proof (run_tick_count (SetMax hi) _ _ H2) as T2.
  pose proof (run_tick_count (SetTickCount None) _ _ H3) as T3.
  simpl in T1, T2, T3.
  change (tick_count (store_on_change (wrapped_handler None)
                        (created native0))) with (@None Z) in T1.
  rewrite T1 in T2.
  set (s0 := store_on_change (wrapped_handler None) (created native0)) in *.
  assert ((min s0 <=? max s0)%float = true) as B0 by reflexivity.
  assert ((value s0 =? value s0)%float = true) as V0 by reflexivity.
  destruct (continuous_step (SetMin lo) s0 s1 B0 V0 Hlo H1 T1) as [R1 O1].
  destruct (continuous_step (SetMax hi) _ _ O1
              (proj1 (leb_not_nan _ _ (proj2 R1))) Hhi H2 T2) as [R2 O2].
  destruct (continuous_step (SetTickCount None) _ _ O2
              (proj1 (leb_not_nan _ _ (proj2 R2))) I H3 T3) as [R3 O3].
  assert (s4 = s3 /\ (x =? x)%float = true) as [-> Hx].
  { destruct v as [x0|].
    - injection H4 as <- <-. auto.
    - unfold eval in H4.
      destruct (truediv_int (fadd lo hi) 2) as [e|q] eqn:Hq; [discriminate|].
      injection H4 as <- <-. auto. }
  pose proof (run_tick_count (SetValue x) _ _ H5) as T5. simpl in T5.
  rewrite T3 in T5.
  destruct (continuous_step (SetValue x) _ _ O3
              (proj1 (leb_not_nan _ _ (proj2 R3))) Hx H5 T5) as [R5 _].
  unfold on_change_set, on_press_set, on_release_set, enabled_set, bind,
    modify in Hr.
  injection Hr as <-. exact R5.
Qed.
End SliderFloat.

(** * Tick values in binary64 *)

Module SliderFloatTicks.

Import Slider Float64 Float64Facts Float64Sign SliderFacts.





End SliderFloatTicks.

(** * Assigning to a continuous slider what it already has *)

Module SliderFloatSame.

Import Slider Float64 Float64Facts SliderFacts SliderMore SliderFloat.

Lemma leb_not_ltb x y : (x <=? y)%float = true -> (y <? x)%float = false.
Proof.
  rewrite leb_spec, ltb_spec. unfold SFleb, SFltb.
  rewrite (SFcompare_swap (Prim2SF x) (Prim2SF y)).
  now destruct (SFcompare (Prim2SF x) (Prim2SF y)) as [[]|].
Qed.

Lemma leb_antisym x y :
  (x <=? y)%float = true -> (y <=? x)%float = true -> (x =? y)%float = true.
Proof.
  rewrite !leb_spec, eqb_spec. unfold SFleb, SFeqb.
  rewrite (SFcompare_swap (Prim2SF x) (Prim2SF y)).
  now destruct (SFcompare (Prim2SF x) (Prim2SF y)) as [[]|].
Qed.

(** Clipping the value of a slider that is between the bounds. *)
Lemma clip_same (s1 s : Slider float) :
  min s1 = min s -> max s1 = max s -> in_range s ->
  clip (value s) s1 = value s.
Proof.
  intros El Eh [Hlo Hhi]. unfold clip, fgt. rewrite El, Eh. simpl in *.
  now rewrite (leb_not_ltb _ _ Hlo), (leb_not_ltb _ _ Hhi).
Qed.

(** [max(lo, min(hi, v))] for a [v] between [lo] and [hi] is equal to [v]. *)
Lemma py_clip_same lo hi v :
  (lo <=? v)%float = true -> (v <=? hi)%float = true ->
  (py_max lo (py_min hi v) =? v)%float = true.
Proof.
  intros Hlo Hhi.
  destruct (leb_not_nan _ _ Hlo) as [Nlo Nv].
  destruct (leb_not_nan _ _ Hhi) as [_ Nhi].
  unfold py_max, py_min, fgt. simpl.
  destruct (v <? hi)%float eqn:H1.
  - destruct (lo <? v)%float eqn:H2; [exact Nv|].
    apply leb_antisym; [exact Hlo|]. now apply not_ltb_leb.
  - pose proof (not_ltb_leb _ _ Nv Nhi H1) as Hhv.
    destruct (lo <? hi)%float eqn:H2.
    + now apply leb_antisym.
    + pose proof (not_ltb_leb _ _ Nlo Nhi H2) as Hhl.
      apply leb_antisym; [exact Hlo|].
      exact (leb_trans _ _ _ Hhi Hhl).
Qed.

Lemma reassigned (s : Slider float) m :
  tick_count s = None -> in_range s ->
  m = SetValue (value s) \/ m = SetMin (min s) \/ m = SetMax (max s) \/
  m = SetTickCount None ->
  fired (final (run m s)) = fired s /\
  (value (final (run m s)) =? value s)%float = true.
Proof.
  intros Hn R Hm. pose proof R as [Rlo Rhi]. simpl in Rlo, Rhi.
  destruct (leb_not_nan _ _ Rlo) as [_ Nv].
  pose proof (leb_trans _ _ _ Rlo Rhi) as Hord.
  pose proof (run_outcome m s) as Ho.
  assert (forall s', run m s = Returns tt s' ->
            (value s' =? value s)%float = true) as Hret.
  { intros s' Hr.
    pose proof (run_tick_count m s s' Hr) as Ht.
    destruct Hm as [->|[->|[->| ->]]]; simpl in Hr, Ht.
    - apply value_set_returns in Hr as (r & p & Hr & _ & Hi).
      rewrite (continuous_round _ _ Hn) in Hr. injection Hr as <-.
      rewrite (clip_same s s eq_refl eq_refl R) in Hi.
      unfold value at 1. rewrite Hi. exact Nv.
    - apply min_set_returns in Hr as (r & p & Hr & _ & Hi).
      rewrite continuous_round in Hr by exact Hn.
      injection Hr as <-. unfold value at 1. rewrite Hi. simpl.
      rewrite (leb_not_ltb _ _ Hord).
      exact (py_clip_same _ _ _ Rlo Rhi).
    - apply max_set_returns in Hr as (r & p & Hr & _ & Hi).
      rewrite continuous_round in Hr by exact Hn.
      injection Hr as <-. unfold value at 1. rewrite Hi. simpl.
      unfold fgt. simpl. rewrite (leb_not_ltb _ _ Hord).
      exact (py_clip_same _ _ _ Rlo Rhi).
    - apply tick_count_set_returns
        in Hr as (_ & i1 & Hi1 & r & p & Hr & _ & Hi).
      rewrite set_tick_count_eq in Hi1. injection Hi1 as <-.
      rewrite continuous_round in Hr by reflexivity.
      injection Hr as <-.
      rewrite clip_same in Hi by (try reflexivity; exact R).
      unfold value at 1. rewrite Hi. exact Nv. }
  destruct (run m s) as [[] s'|e s'] eqn:Hr; simpl.
  - specialize (Hret s' eq_refl). destruct Ho as [_ Hf].
    split; [|exact Hret]. rewrite Hf. unfold fne. simpl.
    now rewrite Hret.
  - split; [exact Ho|].
    assert (value s' = value s) as ->; [|exact Nv].
    destruct m as [v|v|v|n]; simpl in Hr.
    + apply value_set_raises in Hr. now subst s'.
    + now apply min_set_raises in Hr.
    + now apply max_set_raises in Hr.
    + apply tick_count_set_raises in Hr as [(-> & _)|(Hv & _)];
        [reflexivity|exact Hv].
Qed.

End SliderFloatSame.

(** * The specification's claims *)

(** C7: assigning to [min] or [max] of a DateInput a date outside the
    supported window [1800-01-01, 8999-12-31] raises [ValueError] at once and
    leaves the widget exactly as it was; more generally, whenever one of the
    two setters raises, nothing of the widget has changed. *)
Theorem date_bound_out_of_window_rejected :
  (forall w x d,
     DateInput.date_of DateInput.MIN_DATE x = Some d ->
     DateInput.in_window d = false ->
     DateInput.min_set x w = Raises ValueError w /\
     DateInput.max_set x w = Raises ValueError w) /\
  (forall w x e w',
     DateInput.min_set x w = Raises e w' \/
     DateInput.max_set x w = Raises e w' ->
     w' = w).
Proof.
  split.
  - intros w x d Hd Hw.
    assert (DateInput.date_of DateInput.MAX_DATE x = Some d) as Hd'.
    { destruct x; try exact Hd. simpl in Hd. injection Hd as <-.
      discriminate. }
    pose proof (DateInputFacts.min_set_spec x w) as S1.
    pose proof (DateInputFacts.max_set_spec x w) as S2.
    rewrite Hd, Hw in S1. rewrite Hd', Hw in S2. now split.
  - intros w x e w' [Hr|Hr].
    + pose proof (DateInputFacts.min_set_spec x w) as S1.
      destruct (DateInput.date_of DateInput.MIN_DATE x) as [m|];
        [destruct (DateInput.in_window m)|].
      * destruct S1 as (w1 & E & _). congruence.
      * congruence.
      * destruct S1 as (e1 & E). congruence.
    + pose proof (DateInputFacts.max_set_spec x w) as S1.
      destruct (DateInput.date_of DateInput.MAX_DATE x) as [m|];
        [destruct (DateInput.in_window m)|].
      * destruct S1 as (w1 & E & _). congruence.
      * congruence.
      * destruct S1 as (e1 & E). congruence.
Qed.

Lemma date_bound_out_of_window_rejected_witness :
  DateInput.min_set (DateInput.PyStr "9000-01-01") Examples.year1999
    = Raises ValueError Examples.year1999 /\
  DateInput.max_set (DateInput.PyStr "9000-01-01") Examples.year1999
    = Raises ValueError Examples.year1999.
Proof.
  exact (proj1 date_bound_out_of_window_rejected Examples.year1999
           (DateInput.PyStr "9000-01-01") (DateInput.mkdate 9000 1 1)
           eq_refl eq_refl).
Defined.

(** C4: for a DateInput and for a Slider, assigning to [min] a bound strictly
    above the current [max] leaves [max] equal to the new [min], assigning to
    [max] a bound strictly below the current [min] leaves [min] equal to the
    new [max], and when the bounds do not conflict the other bound is left
    unchanged.  A DateInput accepts every date of the supported window.  A
    Slider stores the bounds before it refreshes the value, so this is how
    the assignment leaves them when it returns and also when the refresh of
    the value raises, in any arithmetic. *)
Theorem bound_drags_other_bound :
  (forall w x m,
     DateInput.date_of DateInput.MIN_DATE x = Some m ->
     DateInput.in_window m = true ->
     exists w',
       DateInput.min_set x w = Returns tt w' /\
       DateInput.min w' = m /\
       (DateInput.date_ltb (DateInput.max w) m = true ->
        DateInput.max w' = m) /\
       (DateInput.date_ltb (DateInput.max w) m = false ->
        DateInput.max w' = DateInput.max w)) /\
  (forall w x m,
     DateInput.date_of DateInput.MAX_DATE x = Some m ->
     DateInput.in_window m = true ->
     exists w',
       DateInput.max_set x w = Returns tt w' /\
       DateInput.max w' = m /\
       (DateInput.date_gtb (DateInput.min w) m = true ->
        DateInput.min w' = m) /\
       (DateInput.date_gtb (DateInput.min w) m = false ->
        DateInput.min w' = DateInput.min w)) /\
  (forall (F : Type) (A : PyFloat F) (s : Slider.Slider F) (m : F),
     Slider.min (final (Slider.min_set m s)) = m /\
     (flt (Slider.max s) m = true ->
      Slider.max (final (Slider.min_set m s)) = m) /\
     (flt (Slider.max s) m = false ->
      Slider.max (final (Slider.min_set m s)) = Slider.max s)) /\
  (forall (F : Type) (A : PyFloat F) (s : Slider.Slider F) (m : F),
     Slider.max (final (Slider.max_set m s)) = m /\
     (fgt (Slider.min s) m = true ->
      Slider.min (final (Slider.max_set m s)) = m) /\
     (fgt (Slider.min s) m = false ->
      Slider.min (final (Slider.max_set m s)) = Slider.min s)).
Proof.
  split; [|split; [|split]].
  - intros w x m Hm Hw.
    pose proof (DateInputFacts.min_set_spec x w) as S1.
    rewrite Hm, Hw in S1. destruct S1 as (w' & Hr & Hlo & Hhi & _).
    exists w'. split; [exact Hr|]. split; [exact Hlo|].
    rewrite Hhi. split; intros ->; reflexivity.
  - intros w x m Hm Hw.
    pose proof (DateInputFacts.max_set_spec x w) as S1.
    rewrite Hm, Hw in S1. destruct S1 as (w' & Hr & Hhi & Hlo & _).
    exists w'. split; [exact Hr|]. split; [exact Hhi|].
    rewrite Hlo. split; intros ->; reflexivity.
  - intros F A s m.
    destruct (SliderMore.min_set_final m s) as [Hlo Hhi].
    split; [exact Hlo|]. rewrite Hhi. split; intros ->; reflexivity.
  - intros F A s m.
    destruct (SliderMore.max_set_final m s) as [Hhi Hlo].
    split; [exact Hhi|]. rewrite Hlo. split; intros ->; reflexivity.
Qed.

Lemma bound_drags_other_bound_witness :
  (exists w',
     DateInput.min_set (DateInput.PyStr "2000-01-01") Examples.year1999
       = Returns tt w' /\
     DateInput.min w' = DateInput.mkdate 2000 1 1 /\
     DateInput.max w' = DateInput.mkdate 2000 1 1) /\
  (Slider.min_set 2%float Examples.unit_slider
     = Returns tt Examples.unit_min2 /\
   Slider.min Examples.unit_min2 = 2%float /\
   Slider.max Examples.unit_min2 = 2%float) /\
  (Slider.max_set (-1)%float Examples.unit_slider
     = Returns tt Examples.unit_max_neg /\
   Slider.max Examples.unit_max_neg = (-1)%float /\
   Slider.min Examples.unit_max_neg = (-1)%float) /\
  (Slider.max_set 0.25%float Examples.unit_slider
     = Returns tt Examples.unit_quarter /\
   Slider.max Examples.unit_quarter = 0.25%float /\
   Slider.min Examples.unit_quarter = Slider.min Examples.unit_slider) /\
  (Slider.min_set infinity Examples.unit_slider
     = Raises ValueError Examples.unit_min_inf /\
   Slider.min Examples.unit_min_inf = infinity /\
   Slider.max Examples.unit_min_inf = infinity).
Proof.
  destruct bound_drags_other_bound as (A & _ & C & D).
  split; [|split; [|split; [|split]]].
  - destruct (A Examples.year1999 (DateInput.PyStr "2000-01-01")
                (DateInput.mkdate 2000 1 1) eq_refl eq_refl)
      as (w' & Hr & Hlo & Hhi & _).
    exists w'. split; [exact Hr|]. split; [exact Hlo|].
    apply Hhi. reflexivity.
  - destruct (C float Float64.binary64 Examples.unit_slider 2%float)
      as (Hlo & Hhi & _).
    split; [reflexivity|]. split; [exact Hlo|exact (Hhi eq_refl)].
  - destruct (D float Float64.binary64 Examples.unit_slider (-1)%float)
      as (Hhi & Hlo & _).
    split; [reflexivity|]. split; [exact Hhi|exact (Hlo eq_refl)].
  - destruct (D float Float64.binary64 Examples.unit_slider 0.25%float)
      as (Hhi & _ & Hlo).
    split; [reflexivity|]. split; [exact Hhi|exact (Hlo eq_refl)].
  - destruct (C float Float64.binary64 Examples.unit_slider infinity)
      as (Hlo & Hhi & _).
    split; [reflexivity|]. split; [exact Hlo|exact (Hhi eq_refl)].
Defined.

(** C8: constructing a DateInput or a Slider invokes no application handler,
    whatever the arguments (initial values far from the default, clipped or
    rounded, arguments that make the constructor raise), the backend the
    platform created and its policy of reporting changes, and in any
    arithmetic. *)
Theorem construction_invokes_no_handler :
  (forall value min max on_change impl0 today0,
     DateInput.fired
       (final (DateInput.__init__ value min max on_change
                 (DateInput.created impl0 today0))) = []) /\
  (forall (F : Type) (A : PyFloat F) value min max tick_count
          on_change on_press on_release enabled native0,
     Slider.fired
       (final (Slider.__init__ (F:=F) value min max tick_count
                 on_change on_press on_release enabled
                 (Slider.created native0))) = []).
Proof.
  split.
  - intros. apply DateInputFacts.date_init_quiet.
  - intros. apply SliderFacts.slider_init_quiet.
Qed.

(** C10: on a discrete Slider whose [min] equals [max], [tick_step] and
    [tick_value] are both [None], and assigning anything to [tick_value], an
    integer or [None], raises [ValueError] (and changes nothing). *)
Theorem flat_discrete_slider_has_no_ticks
    (F : Type) (A : PyFloat F) (s : Slider.Slider F) (n : Z) :
  Slider.tick_count s = Some n ->
  feq (Slider.max s) (Slider.min s) = true ->
  Slider.tick_step s = inr None /\
  Slider.tick_value s = inr None /\
  forall t, Slider.tick_value_set t s = Raises ValueError s.
Proof.
  intros Hn He.
  assert (Slider.tick_step s = inr None) as Hstep.
  { unfold Slider.tick_step. now rewrite Hn, He. }
  split; [exact Hstep|]. split.
  - unfold Slider.tick_value. now rewrite Hn, Hstep.
  - intros t. unfold Slider.tick_value_set, bind, gets, eval, raise.
    rewrite Hn. destruct t as [t|]; [|reflexivity].
    now rewrite Hstep.
Qed.

Lemma flat_discrete_slider_has_no_ticks_witness :
  Slider.tick_step Examples.flat3 = inr None /\
  Slider.tick_value Examples.flat3 = inr None /\
  forall t, Slider.tick_value_set t Examples.flat3
            = Raises ValueError Examples.flat3.
Proof.
  exact (flat_discrete_slider_has_no_ticks float Float64.binary64 Examples.flat3 3
           eq_refl eq_refl).
Defined.

(** C2 fails after an assignment that raised.  On [Slider(on_change=h1)],
    [value = float("nan")] raises [ValueError] inside the scope of the
    programmatic change; the scope restores the handler only on the path
    it takes when its block returns, so the handler it disabled is not put
    back.  The next assignment, [value = 0.75], changes the value from 0.5
    to 0.75 and calls no handler. *)
Lemma handler_lost_after_failed_assignment :
  Slider.__init__ None 0%float 1%float None (Some 1%nat) None None true
    (Slider.created Examples.native0) = Returns tt Examples.unit_slider /\
  Slider._on_change Examples.unit_slider = Some 1%nat /\
  Slider.value_set nan Examples.unit_slider
    = Raises ValueError Examples.unit_disabled /\
  Slider._on_change Examples.unit_disabled = None /\
  Slider.value_set 0.75%float Examples.unit_disabled
    = Returns tt Examples.unit_disabled_075 /\
  fne (Slider.value Examples.unit_disabled_075)
      (Slider.value Examples.unit_disabled) = true /\
  Slider.fired Examples.unit_disabled_075 = [].
Proof. repeat split. Qed.

(** C6, as the specification states it, fails where the tick cannot be
    computed: the assignment then raises and stores nothing.  On
    [Slider(min=0, max=10, tick_count=3)], whose [tick_step] is 5.0,
    [value = float("nan")] raises [ValueError], from [round], and the value
    is still 5.0.  And after the failed [max = 5e-324] that slider has a
    [tick_step] of 0.0, and [value = 0] raises [ZeroDivisionError]. *)
Lemma value_assignment_stores_nothing :
  (Slider.tick_step Examples.tick3 = inr (Some 5%float) /\
   Slider.value_set nan Examples.tick3
     = Raises ValueError Examples.tick3_disabled /\
   Slider.value Examples.tick3_disabled = 5%float) /\
  (Slider.max_set Examples.tiny Examples.tick3
     = Raises ZeroDivisionError Examples.tick3_tiny /\
   Slider.tick_step Examples.tick3_tiny = inr (Some 0%float) /\
   Slider.value_set 0%float Examples.tick3_tiny
     = Raises ZeroDivisionError Examples.tick3_tiny /\
   Slider.value Examples.tick3_tiny = 5%float).
Proof. repeat split. Qed.

(** C6, amended: an assignment of [v] to [value] of a Slider first clips
    [v] to [min] when it is below [min] and to [max] when it is above
    [max].  With a defined [tick_step] it then computes the tick
    [min + round((c - min) / tick_step) * tick_step] of the clipped number
    [c], [round] being the nearest integer, ties to even; with no
    [tick_step] it keeps [c].  When that number and its native position can
    be computed the assignment returns and has stored exactly that
    number, with the bounds unchanged; otherwise it raises what the
    computation raised and the value is the one before.  In particular
    [Slider(min=0, max=10, tick_count=3)] has [tick_step == 5.0];
    [value = 7] then gives [value == 5.0] and [tick_value == 2], and
    [value = 8], like [value = 14], gives 10.0. *)
Theorem value_rounds_to_nearest_tick :
  (forall (F : Type) (A : PyFloat F) (s : Slider.Slider F) (v : F)
          (step : option F),
     Slider.tick_step s = inr step ->
     let c := if flt v (Slider.min s) then Slider.min s
              else if fgt v (Slider.max s) then Slider.max s
              else v in
     let tick :=
       match step with
       | Some step =>
           (let? q := truediv (fsub c (Slider.min s)) step in
            let? k := round q in
            let? d := of_int k in
            inr (fadd (Slider.min s) (fmul d step)))%py
       | None => inr c
       end in
     match (let? r := tick in
            let? p := IntSliderImpl.position r (Slider._impl s) in
            inr (r, p))%py with
     | inr (r, p) =>
         exists s',
           Slider.value_set v s = Returns tt s' /\
           Slider.value s' = r /\
           Slider.min s' = Slider.min s /\
           Slider.max s' = Slider.max s /\
           IntSliderImpl.get_int_value (Slider._impl s') = p
     | inl e =>
         exists s',
           Slider.value_set v s = Raises e s' /\
           Slider.value s' = Slider.value s /\
           Slider.min s' = Slider.min s /\
           Slider.max s' = Slider.max s
     end) /\
  Slider.__init__ None 0%float 10%float (Some 3) (Some 1%nat) None None
    true (Slider.created Examples.native0) = Returns tt Examples.tick3 /\
  Slider.tick_step Examples.tick3 = inr (Some 5%float) /\
  (exists s',
     Slider.value_set 7%float Examples.tick3 = Returns tt s' /\
     Slider.value s' = 5%float /\
     Slider.tick_value s' = inr (Some 2)) /\
  (exists s',
     Slider.value_set 8%float Examples.tick3 = Returns tt s' /\
     Slider.value s' = 10%float /\
     Slider.tick_value s' = inr (Some 3)).
Proof.
  split; [|split; [|split; [|split]]].
  - intros F A s v step Hs c tick.
    assert (Slider._round_value (Slider.clip v s) s = tick) as Hr.
    { unfold Slider._round_value. rewrite Hs. subst tick. simpl.
      destruct step as [step|]; [|reflexivity].
      fold c. unfold Slider.clip. fold c.
      destruct (truediv (fsub c (Slider.min s)) step) as [e|q];
        [reflexivity|].
      simpl. destruct (round q) as [e|k]; [reflexivity|].
      simpl. unfold int_mul. destruct (of_int k); reflexivity. }
    rewrite (SliderMore.value_set_eq v s), Hr.
    destruct tick as [e|r]; simpl.
    + exists (Slider.store_on_change None s). repeat split.
    + destruct (IntSliderImpl.position r (Slider._impl s)) as [e|p]; simpl.
      * exists (Slider.store_on_change None s). repeat split.
      * eexists. split; [reflexivity|].
        destruct (fne r (Slider.value s)); repeat split.
  - reflexivity.
  - reflexivity.
  - exists Examples.tick3_7. repeat split.
  - exists Examples.tick3_max. repeat split.
Qed.

Lemma value_rounds_to_nearest_tick_witness :
  (exists s',
     Slider.value_set 14%float Examples.tick3 = Returns tt s' /\
     Slider.value s' = 10%float /\
     Slider.min s' = 0%float /\
     Slider.max s' = 10%float /\
     IntSliderImpl.get_int_value (Slider._impl s') = 2) /\
  (exists s',
     Slider.value_set 1%float Examples.tick3 = Returns tt s' /\
     Slider.value s' = 0%float /\
     Slider.min s' = 0%float /\
     Slider.max s' = 10%float /\
     IntSliderImpl.get_int_value (Slider._impl s') = 0) /\
  (exists s',
     Slider.value_set 7%float Examples.unit_slider = Returns tt s' /\
     Slider.value s' = 1%float /\
     Slider.min s' = 0%float /\
     Slider.max s' = 1%float /\
     IntSliderImpl.get_int_value (Slider._impl s') = 10000) /\
  (exists s',
     Slider.value_set nan Examples.tick3 = Raises ValueError s' /\
     Slider.value s' = 5%float /\
     Slider.min s' = 0%float /\
     Slider.max s' = 10%float).
Proof.
  destruct value_rounds_to_nearest_tick as (A & _).
  split; [|split; [|split]].
  - exact (A float Float64.binary64 Examples.tick3 14%float (Some 5%float)
             eq_refl).
  - exact (A float Float64.binary64 Examples.tick3 1%float (Some 5%float)
             eq_refl).
  - exact (A float Float64.binary64 Examples.unit_slider 7%float None
             eq_refl).
  - exact (A float Float64.binary64 Examples.tick3 nan (Some 5%float)
             eq_refl).
Defined.

(** C9, as the specification states it, fails: [set_min] (like [set_max] and
    [set_tick_count]) stores its argument and leaves the native position
    alone.  On the backend of [Slider()], with value 0.5 on [0, 1] at
    position 5000 of 10000, [set_min(0.25)] leaves the position at 5000,
    while the value 0.5 maps to 3333 on [0.25, 1]. *)
Lemma set_min_leaves_native_position :
  IntSliderImpl.position (IntSliderImpl.get_value Examples.unit_impl)
    Examples.unit_impl
    = inr (IntSliderImpl.get_int_value Examples.unit_impl) /\
  IntSliderImpl.set_min 0.25%float Examples.unit_impl
    = Returns tt Examples.unit_impl_min /\
  IntSliderImpl.get_int_value Examples.unit_impl_min = 5000 /\
  IntSliderImpl.position (IntSliderImpl.get_value Examples.unit_impl_min)
    Examples.unit_impl_min = inr 3333 /\
  IntSliderImpl.position (IntSliderImpl.get_value Examples.unit_impl_min)
    Examples.unit_impl_min
    <> inr (IntSliderImpl.get_int_value Examples.unit_impl_min).
Proof.
  repeat split. intros H. vm_compute in H. discriminate.
Qed.

(** C9, amended: [set_value] leaves the native position equal to the mapping
    of the cached value onto [0, native_max]
    ([round((value - min) / (max - min) * native_max)], or 0 when the span
    is zero); [set_min], [set_max] and [set_tick_count] do not move the
    native slider; and every assignment to [value], [min], [max] or
    [tick_count] of the Slider that returns, as well as a construction that
    returns, ends with [set_value] and so leaves the position equal to the
    mapping. *)
Theorem native_position_follows_value
    (F : Type) (A : PyFloat F) :
  (forall v (i i' : IntSliderImpl.IntSliderImpl F),
     IntSliderImpl.set_value v i = Returns tt i' ->
     IntSliderImpl.get_value i' = v /\
     IntSliderImpl.position v i' = inr (IntSliderImpl.get_int_value i')) /\
  (forall v n (i : IntSliderImpl.IntSliderImpl F),
     IntSliderImpl.get_int_value (final (IntSliderImpl.set_min v i))
       = IntSliderImpl.get_int_value i /\
     IntSliderImpl.get_int_value (final (IntSliderImpl.set_max v i))
       = IntSliderImpl.get_int_value i /\
     IntSliderImpl.get_int_value (final (IntSliderImpl.set_tick_count n i))
       = IntSliderImpl.get_int_value i) /\
  (forall m (s s' : Slider.Slider F),
     Slider.run m s = Returns tt s' ->
     IntSliderImpl.position (Slider.value s') (Slider._impl s')
       = inr (IntSliderImpl.get_int_value (Slider._impl s'))) /\
  (forall value min max tick_count on_change on_press on_release enabled
          native0 (s : Slider.Slider F),
     Slider.__init__ value min max tick_count on_change on_press on_release
       enabled (Slider.created native0) = Returns tt s ->
     IntSliderImpl.position (Slider.value s) (Slider._impl s)
       = inr (IntSliderImpl.get_int_value (Slider._impl s))).
Proof.
  assert (forall r p (i1 : IntSliderImpl.IntSliderImpl F) (s' : Slider.Slider F),
    IntSliderImpl.position r i1 = inr p ->
    Slider._impl s' = IntSliderImpl.store_value r
                        (IntSliderImpl.set_int_value p i1) ->
    IntSliderImpl.position (Slider.value s') (Slider._impl s')
      = inr (IntSliderImpl.get_int_value (Slider._impl s'))) as Hset.
  { intros r p i1 s' Hp Hi. unfold Slider.value. rewrite Hi. exact Hp. }
  assert (forall m (s s' : Slider.Slider F),
    Slider.run m s = Returns tt s' ->
    IntSliderImpl.position (Slider.value s') (Slider._impl s')
      = inr (IntSliderImpl.get_int_value (Slider._impl s'))) as Hrun.
  { intros m s s' Hr. destruct m as [v|v|v|n]; simpl in Hr.
    - apply SliderFacts.value_set_returns in Hr as (r & p & _ & Hp & Hi).
      exact (Hset r p _ s' Hp Hi).
    - apply SliderFacts.min_set_returns in Hr as (r & p & _ & Hp & Hi).
      exact (Hset r p _ s' Hp Hi).
    - apply SliderFacts.max_set_returns in Hr as (r & p & _ & Hp & Hi).
      exact (Hset r p _ s' Hp Hi).
    - apply SliderFacts.tick_count_set_returns
        in Hr as (_ & i1 & _ & r & p & _ & Hp & Hi).
      exact (Hset r p _ s' Hp Hi). }
  split; [|split; [|split]].
  - intros v i i' Hr.
    unfold IntSliderImpl.set_value, bind, eval, modify in Hr.
    destruct (IntSliderImpl.position v i) as [e|p] eqn:Hp; [discriminate|].
    injection Hr as <-. split; [reflexivity|exact Hp].
  - intros v n i. rewrite SliderFacts.set_tick_count_eq. repeat split.
  - exact Hrun.
  - intros value min max tick_count on_change on_press on_release enabled
      native0 s Hr.
    unfold Slider.__init__ in Hr.
    apply bind_returns in Hr as ([] & s0 & _ & Hr).
    apply bind_returns in Hr as ([] & s1 & _ & Hr).
    apply bind_returns in Hr as ([] & s2 & _ & Hr).
    apply bind_returns in Hr as ([] & s3 & _ & Hr).
    apply bind_returns in Hr as (x & s4 & _ & Hr).
    apply bind_returns in Hr as ([] & s5 & H5 & Hr).
    unfold Slider.on_change_set, Slider.on_press_set, Slider.on_release_set,
      Slider.enabled_set, bind, modify in Hr.
    injection Hr as <-.
    exact (Hrun (Slider.SetValue x) s4 s5 H5).
Qed.

Lemma native_position_follows_value_witness :
  IntSliderImpl.position (Slider.value Examples.unit_quarter)
    (Slider._impl Examples.unit_quarter)
  = inr (IntSliderImpl.get_int_value (Slider._impl Examples.unit_quarter)).
Proof.
  exact (proj1 (proj2 (proj2
           (native_position_follows_value float Float64.binary64)))
           (Slider.SetMax 0.25%float) Examples.unit_slider
           Examples.unit_quarter eq_refl).
Defined.

(** C3, as the specification states it, fails in two ways.  On the discrete
    [Slider(min=0, max=10, tick_count=3)], assigning 1.0, which is inside
    the bounds, gives the value 0.0, equal to [min].  And assigning to a
    DateInput a date equal to [min] gives a value equal to [min] although
    the date did not fall outside the bound. *)
Lemma value_equals_bound_for_input_inside :
  (Slider.value_set 1%float Examples.tick3 = Returns tt Examples.tick3_1 /\
   flt 1%float (Slider.min Examples.tick3) = false /\
   fgt 1%float (Slider.max Examples.tick3) = false /\
   feq (Slider.value Examples.tick3_1) (Slider.min Examples.tick3_1) = true) /\
  (DateInput.value_set (DateInput.PyDate (DateInput.mkdate 1999 1 1))
     Examples.year1999 = Returns tt Examples.year1999_jan1 /\
   DateInput.date_ltb (DateInput.mkdate 1999 1 1)
     (DateInput.min Examples.year1999) = false /\
   DateInput.value Examples.year1999_jan1
     = DateInput.min Examples.year1999_jan1).
Proof. repeat split. Qed.

(** C3, amended: a date assigned to [value] of a DateInput whose bounds are
    ordered, and a number that is not a NaN assigned to [value] of a
    continuous Slider whose bounds are ordered (when the assignment
    returns), leave the bounds as they were and [min <= value <= max]; the
    value is [min] when the input was below [min], [max] when it was above
    [max], and the input itself otherwise.  (A discrete Slider then rounds
    to the nearest tick, see C6.)  In particular
    [DateInput(min="1999-01-01", max="1999-12-31", value="2050-01-01")]
    has the value [date(1999, 12, 31)], on any backend. *)
Theorem value_is_clipped_to_bounds :
  (forall w x d,
     DateInput.date_leb (DateInput.min w) (DateInput.max w) = true ->
     DateInput.date_of (DateInput.today w) x = Some d ->
     exists w',
       DateInput.value_set x w = Returns tt w' /\
       DateInput.min w' = DateInput.min w /\
       DateInput.max w' = DateInput.max w /\
       DateInput.in_range w' /\
       (DateInput.date_ltb d (DateInput.min w) = true ->
        DateInput.value w' = DateInput.min w) /\
       (DateInput.date_gtb d (DateInput.max w) = true ->
        DateInput.value w' = DateInput.max w) /\
       (DateInput.date_ltb d (DateInput.min w) = false ->
        DateInput.date_gtb d (DateInput.max w) = false ->
        DateInput.value w' = d)) /\
  (forall impl0 today0 on_change,
     exists w,
       DateInput.__init__ (DateInput.PyStr "2050-01-01")
         (DateInput.PyStr "1999-01-01") (DateInput.PyStr "1999-12-31")
         on_change (DateInput.created impl0 today0) = Returns tt w /\
       DateInput.value w = DateInput.mkdate 1999 12 31) /\
  (forall (s s' : Slider.Slider float) (v : float),
     fle (Slider.min s) (Slider.max s) = true ->
     feq v v = true ->
     Slider.tick_count s = None ->
     Slider.value_set v s = Returns tt s' ->
     Slider.min s' = Slider.min s /\
     Slider.max s' = Slider.max s /\
     Slider.in_range s' /\
     (flt v (Slider.min s) = true -> Slider.value s' = Slider.min s) /\
     (fgt v (Slider.max s) = true -> Slider.value s' = Slider.max s) /\
     (flt v (Slider.min s) = false -> fgt v (Slider.max s) = false ->
      Slider.value s' = v)).
Proof.
  split; [|split].
  - intros w x d Hord Hd.
    pose proof (DateInputFacts.value_set_spec x w) as S1. rewrite Hd in S1.
    destruct S1 as (w' & Hr & Hv & Hlo & Hhi & _).
    exists w'. split; [exact Hr|]. split; [exact Hlo|]. split; [exact Hhi|].
    split; [exact (DateInputFacts.value_set_in_range x w w' Hord Hr)|].
    rewrite Hv. unfold DateInput.date_gtb.
    split; [|split].
    + now intros ->.
    + intros H2. rewrite H2.
      destruct (DateInput.date_ltb d (DateInput.min w)) eqn:H1;
        [|reflexivity].
      apply DateInputFacts.date_leb_antisym; [exact Hord|].
      apply DateInputFacts.date_ltb_leb.
      exact (DateInputFacts.date_ltb_trans _ _ _ H2 H1).
    + now intros -> ->.
  - intros impl0 today0 on_change.
    destruct (DateInputFacts.date_init_returns
                (DateInput.PyStr "2050-01-01") (DateInput.PyStr "1999-01-01")
                (DateInput.PyStr "1999-12-31") on_change impl0 today0
                (DateInput.mkdate 1999 1 1) (DateInput.mkdate 1999 12 31)
                (DateInput.mkdate 2050 1 1)
                eq_refl eq_refl eq_refl eq_refl eq_refl) as (w & Hr).
    exists w. split; [exact Hr|].
    apply DateInputFacts.date_init_spec
      in Hr as (m1 & m2 & d & H1 & H2 & H3 & Hhi & Hlo & Hv).
    injection H1 as <-. injection H2 as <-. injection H3 as <-.
    rewrite Hv, Hlo, Hhi. reflexivity.
  - intros s s' v Hord Hv Hn Hr.
    apply SliderFacts.value_set_returns in Hr as (r & p & Hr & _ & Hi).
    rewrite (SliderFacts.continuous_round _ _ Hn) in Hr. injection Hr as <-.
    assert (Slider.value s' = Slider.clip v s) as Ev
      by (unfold Slider.value; now rewrite Hi).
    assert (Slider.min s' = Slider.min s) as Hlo
      by (unfold Slider.min; now rewrite Hi).
    assert (Slider.max s' = Slider.max s) as Hhi
      by (unfold Slider.max; now rewrite Hi).
    destruct (SliderFloat.clip_in_range s v Hord Hv) as [C1 C2].
    split; [exact Hlo|]. split; [exact Hhi|].
    split; [exact (SliderFloat.in_range_fields s' _ _ _ Hlo Hhi Ev C1 C2)|].
    rewrite Ev. unfold Slider.clip. split; [|split].
    + now intros ->.
    + intros H2. rewrite H2.
      destruct (flt v (Slider.min s)) eqn:H1; [|reflexivity].
      exfalso. exact (Float64Facts.not_below_and_above _ _ _ H1 Hord H2).
    + now intros -> ->.
Qed.

Lemma value_is_clipped_to_bounds_witness :
  (exists w',
     DateInput.value_set (DateInput.PyStr "1999-01-01") Examples.year1999
       = Returns tt w' /\
     DateInput.in_range w') /\
  Slider.value Examples.unit_quarter = Slider.max Examples.unit_quarter.
Proof.
  destruct value_is_clipped_to_bounds as (A & _ & C).
  split.
  - destruct (A Examples.year1999 (DateInput.PyStr "1999-01-01")
                (DateInput.mkdate 1999 1 1) eq_refl eq_refl)
      as (w' & Hr & _ & _ & Hin & _).
    exists w'. split; [exact Hr|exact Hin].
  - destruct (C Examples.unit_quarter Examples.unit_quarter 7%float
                eq_refl eq_refl eq_refl eq_refl) as (_ & _ & _ & _ & H2 & _).
    exact (H2 eq_refl).
Defined.

(** C1 fails on the Slider, by a defect of the code.  The setters clip the
    number to the bounds and then round it to a tick, and the tick computed
    in binary64 can lie outside the bounds.  On the discrete
    [Slider(min=0.1, max=0.3, tick_count=4)], [value = 0.3] returns and
    stores [0.1 + 3 * tick_step], which is 0.30000000000000004, above
    [max].  Nor is a NaN kept out where its native position is not
    computed: on the continuous [Slider(min=1, max=1)],
    [value = float("nan")] returns and stores the NaN, which compares with
    nothing. *)
Lemma slider_value_leaves_range :
  (Slider.__init__ None Examples.f0_1 Examples.f0_3 (Some 4) None None None
     true (Slider.created Examples.native0) = Returns tt Examples.tenths /\
   Slider.run (Slider.SetValue Examples.f0_3) Examples.tenths
     = Returns tt Examples.tenths_max /\
   fle (Slider.value Examples.tenths_max) (Slider.max Examples.tenths_max)
     = false /\
   ~ Slider.in_range Examples.tenths_max) /\
  (Slider.__init__ None 1%float 1%float None None None None
     true (Slider.created Examples.native0) = Returns tt Examples.flat /\
   Slider.run (Slider.SetValue nan) Examples.flat
     = Returns tt Examples.flat_nan /\
   ~ Slider.in_range Examples.flat_nan).
Proof.
  repeat split; intros [H1 H2]; discriminate.
Qed.




(** * Further properties of DateInput *)

Module DateInputMore.

Import DateInput DateInputFacts.

Local Open Scope py_scope.

(** The handler calls that an assignment to [value] makes. *)
Lemma value_set_fired x w d :
  date_of (today w) x = Some d ->
  exists w',
    value_set x w = Returns tt w' /\
    value w' = (if date_ltb d (min w) then min w
                else if date_gtb d (max w) then max w else d) /\
    min w' = min w /\ max w' = max w /\
    reports (_impl w') = reports (_impl w) /\
    _on_change w' = _on_change w /\ today w' = today w /\
    fired w' = (if reports (_impl w) (value w) (value w')
                then call_handler (_on_change w) (fired w)
                else fired w).
Proof.
  destruct w as [[v lo hi rep] h log td].
  destruct x as [|dd ? ? ?|dd|s|]; run_date; intros Hd;
    try discriminate.
  all: try (destruct (fromisoformat s) as [e|dd]; simpl; [discriminate|]).
  all: injection Hd as ->.
  all: repeat match goal with
       | |- context [if date_ltb ?a ?b then _ else _] =>
           destruct (date_ltb a b) eqn:?; simpl
       end.
  all: match goal with
       | |- context [if ?r ?a ?b then (fun _ => _) else _] =>
           destruct (r a b) eqn:Hrep; simpl
       end.
  all: eexists; (split; [reflexivity|]); simpl; rewrite ?Hrep; tauto.
Qed.

(** The handler calls that an assignment to [min] makes: none unless the
    value has to be raised to the new minimum. *)
Lemma min_set_fired x w m :
  date_of MIN_DATE x = Some m -> in_window m = true ->
  exists w',
    min_set x w = Returns tt w' /\
    min w' = m /\
    max w' = (if date_ltb (max w) m then m else max w) /\
    value w' = (if date_ltb (value w) m then m else value w) /\
    reports (_impl w') = reports (_impl w) /\
    _on_change w' = _on_change w /\ today w' = today w /\
    fired w' = (if date_ltb (value w) m
                then if reports (_impl w) (value w) m
                     then call_handler (_on_change w) (fired w)
                     else fired w
                else fired w).
Proof.
  destruct w as [[v lo hi rep] h log td].
  destruct x as [|d ? ? ?|d|s|]; run_setter; intros Hm Hw;
    try discriminate.
  all: try (destruct (fromisoformat s) as [e|d]; simpl; [discriminate|]).
  all: injection Hm as ->.
  all: apply andb_true_iff in Hw as [W1 W2];
       apply negb_true_iff in W1; apply negb_true_iff in W2;
       try rewrite W1; try rewrite W2; simpl.
  all: repeat match goal with
       | |- context [if date_ltb ?a ?b then _ else _] =>
           destruct (date_ltb a b) eqn:?; simpl
       end.
  all: try (eexists; split; [reflexivity|]; simpl; tauto).
  all: match goal with
       | |- exists w', value_set (PyDate ?m) ?w0 = _ /\ _ =>
           destruct (value_set_fired (PyDate m) w0 m eq_refl)
             as (w' & Hr & Hv & Hlo' & Hhi' & Hrep & Hh & Htd & Hf);
           exists w'; run_setter;
           rewrite ?date_ltb_irrefl in Hv
       end.
  all: repeat match goal with
       | H : date_ltb ?a ?b = _, H' : context [date_ltb ?a ?b] |- _ =>
           rewrite H in H'
       end.
  all: rewrite ?date_ltb_irrefl in *; rewrite Hv in Hf; tauto.
Qed.

Lemma max_set_fired x w m :
  date_of MAX_DATE x = Some m -> in_window m = true ->
  exists w',
    max_set x w = Returns tt w' /\
    max w' = m /\
    min w' = (if date_gtb (min w) m then m else min w) /\
    value w' = (if date_gtb (value w) m then m else value w) /\
    reports (_impl w') = reports (_impl w) /\
    _on_change w' = _on_change w /\ today w' = today w /\
    fired w' = (if date_gtb (value w) m
                then if reports (_impl w) (value w) m
                     then call_handler (_on_change w) (fired w)
                     else fired w
                else fired w).
Proof.
  destruct w as [[v lo hi rep] h log td].
  destruct x as [|d ? ? ?|d|s|]; run_setter; intros Hm Hw;
    try discriminate.
  all: try (destruct (fromisoformat s) as [e|d]; simpl; [discriminate|]).
  all: injection Hm as ->.
  all: apply andb_true_iff in Hw as [W1 W2];
       apply negb_true_iff in W1; apply negb_true_iff in W2;
       try rewrite W1; try rewrite W2; simpl.
  all: repeat match goal with
       | |- context [if date_ltb ?a ?b then _ else _] =>
           destruct (date_ltb a b) eqn:?; simpl
       end.
  all: try (eexists; split; [reflexivity|]; simpl; tauto).
  all: match goal with
       | |- exists w', value_set (PyDate ?m) ?w0 = _ /\ _ =>
           destruct (value_set_fired (PyDate m) w0 m eq_refl)
             as (w' & Hr & Hv & Hlo' & Hhi' & Hrep & Hh & Htd & Hf);
           exists w'; run_setter;
           rewrite ?date_ltb_irrefl in Hv
       end.
  all: repeat match goal with
       | H : date_ltb ?a ?b = _, H' : context [date_ltb ?a ?b] |- _ =>
           rewrite H in H'
       end.
  all: rewrite ?date_ltb_irrefl in *; rewrite Hv in Hf; tauto.
Qed.

(** The bounds a returning constructor leaves are dates of the supported
    window. *)
Lemma date_init_window v lo hi h impl0 today0 w :
  __init__ v lo hi h (created impl0 today0) = Returns tt w ->
  in_window (min w) = true /\ in_window (max w) = true.
Proof.
  unfold __init__. intros Hr.
  apply bind_returns in Hr as (? & w0 & H0 & Hr).
  apply bind_returns in Hr as (? & w1 & H1 & Hr).
  apply bind_returns in Hr as (? & w2 & H2 & Hr).
  apply bind_returns in Hr as (? & w3 & H3 & Hr).
  unfold on_change_set, modify in H0, Hr.
  injection H0 as _ <-. injection Hr as <-.
  match type of H1 with
  | min_set _ ?w0 = _ => pose proof (min_set_spec lo w0) as S1
  end.
  destruct (date_of MIN_DATE lo) as [m1|];
    [destruct (in_window m1) eqn:W1|]; try congruence;
    try (destruct S1; congruence).
  destruct S1 as (w1' & E1 & Hlo1 & _).
  rewrite H1 in E1. injection E1 as _ <-.
  pose proof (max_set_spec hi w1) as S2.
  destruct (date_of MAX_DATE hi) as [m2|];
    [destruct (in_window m2) eqn:W2|]; try congruence;
    try (destruct S2; congruence).
  destruct S2 as (w2' & E2 & Hhi2 & Hlo2 & _).
  rewrite H2 in E2. injection E2 as _ <-.
  pose proof (value_set_spec v w2) as S3.
  destruct (date_of (today w2) v) as [d|]; [|destruct S3; congruence].
  destruct S3 as (w3' & E3 & _ & Hlo3 & Hhi3 & _).
  rewrite H3 in E3. injection E3 as _ <-.
  change (in_window (min w3) = true /\ in_window (max w3) = true).
  rewrite Hlo3, Hhi3, Hlo2, Hhi2, Hlo1.
  split; [|exact W2]. now destruct (date_gtb m1 m2).
Qed.

Lemma run_window m w :
  in_window (min w) = true -> in_window (max w) = true ->
  in_window (min (final (run m w))) = true /\
  in_window (max (final (run m w))) = true.
Proof.
  intros Wlo Whi. destruct m as [x|x|x]; simpl.
  - pose proof (value_set_spec x w) as Hs.
    destruct (date_of (today w) x).
    + destruct Hs as (w1 & -> & _ & Hlo & Hhi & _). simpl.
      now rewrite Hlo, Hhi.
    + destruct Hs as (e & ->). auto.
  - pose proof (min_set_spec x w) as Hs.
    destruct (date_of MIN_DATE x) as [m|]; [destruct (in_window m) eqn:Wm|].
    + destruct Hs as (w1 & -> & Hlo & Hhi & _). simpl.
      rewrite Hlo, Hhi. split; [exact Wm|].
      now destruct (date_ltb (max w) m).
    + rewrite Hs. auto.
    + destruct Hs as (e & ->). auto.
  - pose proof (max_set_spec x w) as Hs.
    destruct (date_of MAX_DATE x) as [m|]; [destruct (in_window m) eqn:Wm|].
    + destruct Hs as (w1 & -> & Hhi & Hlo & _). simpl.
      rewrite Hlo, Hhi. split; [|exact Wm].
      now destruct (date_gtb (min w) m).
    + rewrite Hs. auto.
    + destruct Hs as (e & ->). auto.
Qed.

Lemma reachable_window w :
  reachable w -> in_window (min w) = true /\ in_window (max w) = true.
Proof.
  induction 1 as [impl0 today0 v lo hi h w Hr|w m _ [Wlo Whi]|w h _ IH].
  - exact (date_init_window _ _ _ _ _ _ _ Hr).
  - exact (run_window m w Wlo Whi).
  - exact IH.
Qed.

(** A date between two dates of the window is a date of the window. *)
Lemma in_window_between lo v hi :
  in_window lo = true -> in_window hi = true ->
  date_leb lo v = true -> date_leb v hi = true ->
  in_window v = true.
Proof.
  unfold in_window. intros Wlo Whi Hlo Hhi.
  apply andb_true_iff in Wlo as [L1 _]. apply andb_true_iff in Whi as [_ H2].
  apply andb_true_iff. split.
  - exact (date_leb_trans _ _ _ L1 Hlo).
  - exact (date_leb_trans _ _ _ Hhi H2).
Qed.

Lemma reachable_value_window w :
  reachable w -> in_window (value w) = true.
Proof.
  intros Hw. destruct (reachable_window w Hw) as [Wlo Whi].
  destruct (reachable_in_range w Hw) as [Hlo Hhi].
  exact (in_window_between _ _ _ Wlo Whi Hlo Hhi).
Qed.

(** A text that is no ISO date is a [ValueError]. *)
Lemma fromisoformat_error s e : fromisoformat s = inl e -> e = ValueError.
Proof.
  unfold fromisoformat.
  repeat match goal with
         | |- context [match ?x with _ => _ end] => destruct x
         end; congruence.
Qed.

End DateInputMore.

(** X1: an assignment to [value] of a DateInput returns for [None], for
    every date and for every date-time, whether or not it lies in the
    supported window (nothing is checked against the window here); a
    date-time counts as its date, and a text that is read as a date counts
    as that date.  An object that is none of these raises [TypeError].  The
    assignment raises only for a text or for such an object, and then the
    widget is left exactly as it was. *)
Theorem date_value_accepts_every_date :
  (forall w d,
     exists w', DateInput.value_set (DateInput.PyDate d) w = Returns tt w') /\
  (forall w,
     exists w', DateInput.value_set DateInput.PyNone w = Returns tt w') /\
  (forall w d hour minute second,
     DateInput.value_set (DateInput.PyDateTime d hour minute second) w
     = DateInput.value_set (DateInput.PyDate d) w) /\
  (forall w s d,
     DateInput.fromisoformat s = inr d ->
     DateInput.value_set (DateInput.PyStr s) w
     = DateInput.value_set (DateInput.PyDate d) w) /\
  (forall w,
     DateInput.value_set DateInput.PyOther w = Raises TypeError w) /\
  (forall w x e w',
     DateInput.value_set x w = Raises e w' ->
     w' = w /\
     match x with
     | DateInput.PyStr _ => True
     | DateInput.PyOther => e = TypeError
     | _ => False
     end).
Proof.
  split; [|split; [|split; [|split; [|split]]]].
  - intros w d.
    destruct (DateInputMore.value_set_fired (DateInput.PyDate d) w d eq_refl)
      as (w' & Hr & _).
    now exists w'.
  - intros w.
    destruct (DateInputMore.value_set_fired DateInput.PyNone w
                (DateInput.today w) eq_refl) as (w' & Hr & _).
    now exists w'.
  - reflexivity.
  - intros w s d Hs.
    unfold DateInput.value_set, DateInput._convert_date, bind, eval, ret.
    now rewrite Hs.
  - reflexivity.
  - intros w x e w' Hr.
    pose proof (DateInputFacts.value_set_spec x w) as Hs.
    destruct (DateInput.date_of (DateInput.today w) x) as [d|] eqn:Hd.
    + destruct Hs as (w1 & Hr1 & _). congruence.
    + destruct Hs as (e1 & Hr1). rewrite Hr1 in Hr.
      injection Hr as <- <-. split; [reflexivity|].
      destruct x as [|d ? ? ?|d|s|]; try discriminate; [exact I|].
      now injection Hr1 as <-.
Qed.

Lemma date_value_accepts_every_date_witness :
  DateInput.value_set (DateInput.PyStr "2050-01-01") Examples.year1999
  = DateInput.value_set (DateInput.PyDate (DateInput.mkdate 2050 1 1))
      Examples.year1999 /\
  Examples.year1999 = Examples.year1999 /\ TypeError = TypeError.
Proof.
  destruct date_value_accepts_every_date as (_ & _ & _ & D & _ & G).
  split.
  - exact (D Examples.year1999 "2050-01-01"%string
             (DateInput.mkdate 2050 1 1) eq_refl).
  - exact (G Examples.year1999 DateInput.PyOther TypeError Examples.year1999
             eq_refl).
Defined.

(** X2: although [value] is assigned without a check against the supported
    window, every DateInput an application can hold has its [min], its
    [value] and its [max] in the window [1800-01-01, 8999-12-31]: the bounds
    are checked, and the value is clipped to them. *)
Theorem date_stays_in_window (w : DateInput.DateInput) :
  DateInput.reachable w ->
  DateInput.in_window (DateInput.min w) = true /\
  DateInput.in_window (DateInput.value w) = true /\
  DateInput.in_window (DateInput.max w) = true.
Proof.
  intros Hw.
  destruct (DateInputMore.reachable_window w Hw) as [Wlo Whi].
  split; [exact Wlo|]. split; [|exact Whi].
  exact (DateInputMore.reachable_value_window w Hw).
Qed.

Lemma date_stays_in_window_witness :
  DateInput.in_window (DateInput.value Examples.year1999) = true.
Proof.
  refine (proj1 (proj2 (date_stays_in_window Examples.year1999 _))).
  apply (DateInput.reach_init Examples.date_impl0 Examples.today0
           (DateInput.PyStr "2050-01-01") (DateInput.PyStr "1999-01-01")
           (DateInput.PyStr "1999-12-31") (Some 1%nat)).
  reflexivity.
Defined.

(** X3: on a DateInput an application can hold, [min = None] followed by
    [max = None] never raises and opens the bounds to the whole supported
    window, [1800-01-01] and [8999-12-31], without moving the value. *)
Theorem date_none_opens_window (w : DateInput.DateInput) :
  DateInput.reachable w ->
  exists w1 w2,
    DateInput.min_set DateInput.PyNone w = Returns tt w1 /\
    DateInput.max_set DateInput.PyNone w1 = Returns tt w2 /\
    DateInput.min w2 = DateInput.MIN_DATE /\
    DateInput.max w2 = DateInput.MAX_DATE /\
    DateInput.value w2 = DateInput.value w.
Proof.
  intros Hw.
  destruct (DateInputMore.reachable_window w Hw) as [Wlo Whi].
  pose proof (DateInputMore.reachable_value_window w Hw) as Wv.
  unfold DateInput.in_window, DateInput.date_leb in Wlo, Whi, Wv.
  apply andb_true_iff in Wv as [V1 V2].
  apply andb_true_iff in Whi as [H1 H2].
  apply negb_true_iff in V1, V2, H1, H2.
  destruct (DateInputMore.min_set_fired DateInput.PyNone w
              DateInput.MIN_DATE eq_refl eq_refl)
    as (w1 & E1 & Hlo1 & Hhi1 & Hv1 & _).
  destruct (DateInputMore.max_set_fired DateInput.PyNone w1
              DateInput.MAX_DATE eq_refl eq_refl)
    as (w2 & E2 & Hhi2 & Hlo2 & Hv2 & _).
  exists w1, w2. split; [exact E1|]. split; [exact E2|].
  rewrite H1 in Hhi1. rewrite V1 in Hv1.
  unfold DateInput.date_gtb in Hlo2, Hv2.
  rewrite Hlo1 in Hlo2. rewrite Hv1, V2 in Hv2.
  split; [exact Hlo2|]. split; [exact Hhi2|exact Hv2].
Qed.

Lemma date_none_opens_window_witness :
  exists w1 w2,
    DateInput.min_set DateInput.PyNone Examples.year1999 = Returns tt w1 /\
    DateInput.max_set DateInput.PyNone w1 = Returns tt w2 /\
    DateInput.min w2 = DateInput.MIN_DATE /\
    DateInput.max w2 = DateInput.MAX_DATE /\
    DateInput.value w2 = DateInput.value Examples.year1999.
Proof.
  apply date_none_opens_window.
  apply (DateInput.reach_init Examples.date_impl0 Examples.today0
           (DateInput.PyStr "2050-01-01") (DateInput.PyStr "1999-01-01")
           (DateInput.PyStr "1999-12-31") (Some 1%nat)).
  reflexivity.
Defined.

(** X4: an assignment to [value], [min] or [max] of a DateInput calls the
    installed handler at most once, whatever the backend reports; and an
    assignment to [min] or [max] that does not exclude the current value
    makes no assignment to the value, so it leaves the value alone and calls
    no handler. *)
Theorem date_bound_keeps_value_it_admits :
  (forall m w,
     DateInput.fired (final (DateInput.run m w)) = DateInput.fired w \/
     DateInput.fired (final (DateInput.run m w))
     = call_handler (DateInput._on_change w) (DateInput.fired w)) /\
  (forall w x m,
     DateInput.date_of DateInput.MIN_DATE x = Some m ->
     DateInput.in_window m = true ->
     DateInput.date_ltb (DateInput.value w) m = false ->
     exists w',
       DateInput.min_set x w = Returns tt w' /\
       DateInput.value w' = DateInput.value w /\
       DateInput.fired w' = DateInput.fired w) /\
  (forall w x m,
     DateInput.date_of DateInput.MAX_DATE x = Some m ->
     DateInput.in_window m = true ->
     DateInput.date_gtb (DateInput.value w) m = false ->
     exists w',
       DateInput.max_set x w = Returns tt w' /\
       DateInput.value w' = DateInput.value w /\
       DateInput.fired w' = DateInput.fired w).
Proof.
  split; [|split].
  - intros m w. destruct m as [x|x|x]; simpl.
    + destruct (DateInput.date_of (DateInput.today w) x) as [d|] eqn:Hd.
      * destruct (DateInputMore.value_set_fired x w d Hd)
          as (w' & -> & _ & _ & _ & _ & _ & _ & Hf).
        simpl. rewrite Hf. destruct (DateInput.reports _ _ _); auto.
      * pose proof (DateInputFacts.value_set_spec x w) as Hs.
        rewrite Hd in Hs. destruct Hs as (e & ->). auto.
    + destruct (DateInput.date_of DateInput.MIN_DATE x) as [d|] eqn:Hd;
        [destruct (DateInput.in_window d) eqn:Hw|].
      * destruct (DateInputMore.min_set_fired x w d Hd Hw)
          as (w' & -> & _ & _ & _ & _ & _ & _ & Hf).
        simpl. rewrite Hf.
        destruct (DateInput.date_ltb _ _); [|auto].
        destruct (DateInput.reports _ _ _); auto.
      * pose proof (DateInputFacts.min_set_spec x w) as Hs.
        rewrite Hd, Hw in Hs. rewrite Hs. auto.
      * pose proof (DateInputFacts.min_set_spec x w) as Hs.
        rewrite Hd in Hs. destruct Hs as (e & ->). auto.
    + destruct (DateInput.date_of DateInput.MAX_DATE x) as [d|] eqn:Hd;
        [destruct (DateInput.in_window d) eqn:Hw|].
      * destruct (DateInputMore.max_set_fired x w d Hd Hw)
          as (w' & -> & _ & _ & _ & _ & _ & _ & Hf).
        simpl. rewrite Hf.
        destruct (DateInput.date_gtb _ _); [|auto].
        destruct (DateInput.reports _ _ _); auto.
      * pose proof (DateInputFacts.max_set_spec x w) as Hs.
        rewrite Hd, Hw in Hs. rewrite Hs. auto.
      * pose proof (DateInputFacts.max_set_spec x w) as Hs.
        rewrite Hd in Hs. destruct Hs as (e & ->). auto.
  - intros w x m Hm Hw Hv.
    destruct (DateInputMore.min_set_fired x w m Hm Hw)
      as (w' & Hr & _ & _ & Hv' & _ & _ & _ & Hf).
    rewrite Hv in Hv', Hf. now exists w'.
  - intros w x m Hm Hw Hv.
    destruct (DateInputMore.max_set_fired x w m Hm Hw)
      as (w' & Hr & _ & _ & Hv' & _ & _ & _ & Hf).
    rewrite Hv in Hv', Hf. now exists w'.
Qed.

Lemma date_bound_keeps_value_it_admits_witness :
  exists w',
    DateInput.min_set (DateInput.PyStr "1999-06-01") Examples.year1999
      = Returns tt w' /\
    DateInput.value w' = DateInput.value Examples.year1999 /\
    DateInput.fired w' = DateInput.fired Examples.year1999.
Proof.
  exact (proj1 (proj2 date_bound_keeps_value_it_admits)
           Examples.year1999 (DateInput.PyStr "1999-06-01")
           (DateInput.mkdate 1999 6 1) eq_refl eq_refl eq_refl).
Defined.

(** X5: on a DateInput an application can hold, assigning to [value], [min]
    or [max] the date it already has never raises and changes neither the
    value nor the bounds; for [min] and [max] no handler is called. *)
Theorem date_reassignment_changes_nothing (w : DateInput.DateInput) :
  DateInput.reachable w ->
  (exists w',
     DateInput.value_set (DateInput.PyDate (DateInput.value w)) w
       = Returns tt w' /\
     DateInput.value w' = DateInput.value w /\
     DateInput.min w' = DateInput.min w /\
     DateInput.max w' = DateInput.max w) /\
  (exists w',
     DateInput.min_set (DateInput.PyDate (DateInput.min w)) w
       = Returns tt w' /\
     DateInput.value w' = DateInput.value w /\
     DateInput.min w' = DateInput.min w /\
     DateInput.max w' = DateInput.max w /\
     DateInput.fired w' = DateInput.fired w) /\
  (exists w',
     DateInput.max_set (DateInput.PyDate (DateInput.max w)) w
       = Returns tt w' /\
     DateInput.value w' = DateInput.value w /\
     DateInput.min w' = DateInput.min w /\
     DateInput.max w' = DateInput.max w /\
     DateInput.fired w' = DateInput.fired w).
Proof.
  intros Hw.
  destruct (DateInputMore.reachable_window w Hw) as [Wlo Whi].
  destruct (DateInputFacts.reachable_in_range w Hw) as [Hlo Hhi].
  pose proof (DateInputFacts.date_leb_trans _ _ _ Hlo Hhi) as Hord.
  unfold DateInput.date_leb in Hlo, Hhi, Hord.
  apply negb_true_iff in Hlo, Hhi, Hord.
  split; [|split].
  - destruct (DateInputMore.value_set_fired
                (DateInput.PyDate (DateInput.value w)) w _ eq_refl)
      as (w' & Hr & Hv & Hlo' & Hhi' & _).
    exists w'. split; [exact Hr|].
    unfold DateInput.date_gtb in Hv. rewrite Hlo, Hhi in Hv. auto.
  - destruct (DateInputMore.min_set_fired
                (DateInput.PyDate (DateInput.min w)) w _ eq_refl Wlo)
      as (w' & Hr & Hlo' & Hhi' & Hv & _ & _ & _ & Hf).
    exists w'. split; [exact Hr|].
    rewrite Hlo in Hv, Hf. rewrite Hord in Hhi'. auto.
  - destruct (DateInputMore.max_set_fired
                (DateInput.PyDate (DateInput.max w)) w _ eq_refl Whi)
      as (w' & Hr & Hhi' & Hlo' & Hv & _ & _ & _ & Hf).
    exists w'. split; [exact Hr|].
    unfold DateInput.date_gtb in Hlo', Hv, Hf.
    rewrite Hhi in Hv, Hf. rewrite Hord in Hlo'. auto.
Qed.

Lemma date_reassignment_changes_nothing_witness :
  exists w',
    DateInput.min_set
      (DateInput.PyDate (DateInput.min Examples.year1999)) Examples.year1999
      = Returns tt w' /\
    DateInput.value w' = DateInput.value Examples.year1999 /\
    DateInput.min w' = DateInput.min Examples.year1999 /\
    DateInput.max w' = DateInput.max Examples.year1999 /\
    DateInput.fired w' = DateInput.fired Examples.year1999.
Proof.
  refine (proj1 (proj2 (date_reassignment_changes_nothing
                          Examples.year1999 _))).
  apply (DateInput.reach_init Examples.date_impl0 Examples.today0
           (DateInput.PyStr "2050-01-01") (DateInput.PyStr "1999-01-01")
           (DateInput.PyStr "1999-12-31") (Some 1%nat)).
  reflexivity.
Defined.

(** X6: a tick count is what was last assigned: after an assignment of
    [tick_count] that returns the getter gives the assigned count (the
    backend keeps it as a native maximum of [tick_count - 1], or of 10000
    with hidden ticks for [None]), assignments to [value], [min] and [max]
    leave it alone, and a slider made continuous has no [tick_step] and no
    [tick_value]. *)
Theorem tick_count_is_what_was_assigned (F : Type) (A : PyFloat F) :
  (forall n (i : IntSliderImpl.IntSliderImpl F),
     let i' := final (IntSliderImpl.set_tick_count n i) in
     IntSliderImpl.get_tick_count i' = n /\
     IntSliderImpl.get_int_max i'
     = match n with
       | Some k => k - 1
       | None => IntSliderImpl.CONTINUOUS_MAX
       end /\
     IntSliderImpl.ticks_visible (IntSliderImpl.native i')
     = match n with Some _ => true | None => false end /\
     IntSliderImpl.get_value i' = IntSliderImpl.get_value i /\
     IntSliderImpl.get_int_value i' = IntSliderImpl.get_int_value i) /\
  (forall m (s s' : Slider.Slider F),
     Slider.run m s = Returns tt s' ->
     Slider.tick_count s'
     = match m with
       | Slider.SetTickCount n => n
       | _ => Slider.tick_count s
       end) /\
  (forall (s s' : Slider.Slider F),
     Slider.tick_count_set None s = Returns tt s' ->
     Slider.tick_step s' = inr None /\ Slider.tick_value s' = inr None).
Proof.
  split; [|split].
  - intros n i. rewrite SliderFacts.set_tick_count_eq. simpl.
    repeat split. unfold IntSliderImpl.get_tick_count. simpl.
    destruct n as [k|]; [|reflexivity].
    unfold IntSliderImpl.get_int_max. simpl. f_equal. lia.
  - exact SliderFacts.run_tick_count.
  - intros s s' Hr.
    pose proof (SliderFacts.run_tick_count (Slider.SetTickCount None) s s' Hr)
      as Hn.
    simpl in Hn. unfold Slider.tick_value, Slider.tick_step.
    rewrite Hn. auto.
Qed.

Lemma tick_count_is_what_was_assigned_witness :
  Slider.tick_count Examples.unit_quarter = Slider.tick_count Examples.unit_slider.
Proof.
  exact (proj1 (proj2 (tick_count_is_what_was_assigned float Float64.binary64))
           (Slider.SetMax 0.25%float) Examples.unit_slider
           Examples.unit_quarter eq_refl).
Defined.

(** X7: [tick_value] follows the mode of the slider.  On a continuous
    slider it reads [None], assigning [None] does nothing and assigning an
    integer raises [ValueError]; on a discrete slider assigning [None]
    raises [ValueError].  Neither error changes the slider. *)
Theorem tick_value_follows_mode (F : Type) (A : PyFloat F)
    (s : Slider.Slider F) :
  (Slider.tick_count s = None ->
   Slider.tick_value s = inr None /\
   Slider.tick_value_set None s = Returns tt s /\
   forall t, Slider.tick_value_set (Some t) s = Raises ValueError s) /\
  (forall n, Slider.tick_count s = Some n ->
   Slider.tick_value_set None s = Raises ValueError s).
Proof.
  split.
  - intros Hn. unfold Slider.tick_value, Slider.tick_value_set, bind, gets.
    rewrite Hn. repeat split.
  - intros n Hn. unfold Slider.tick_value_set, bind, gets.
    now rewrite Hn.
Qed.

Lemma tick_value_follows_mode_witness :
  Slider.tick_value_set (Some 2) Examples.unit_slider
    = Raises ValueError Examples.unit_slider /\
  Slider.tick_value_set None Examples.tick3
    = Raises ValueError Examples.tick3.
Proof.
  split.
  - exact (proj2 (proj2 (proj1 (tick_value_follows_mode float
             Float64.binary64 Examples.unit_slider) eq_refl)) 2).
  - exact (proj2 (tick_value_follows_mode float Float64.binary64
             Examples.tick3) 3 eq_refl).
Defined.

(** X8: an assignment to [value], [min], [max] or [tick_count] of a Slider
    that raises has not changed the value and has called no handler.
    Either it was a tick count below 2, rejected with [ValueError] before
    anything was touched, or it raised inside the scope of the programmatic
    change, and then the scope is not completed: the [on_change] handler
    stays disabled.  The backend's [set_value] raises before it changes
    anything. *)
Theorem failed_assignment_keeps_value (F : Type) (A : PyFloat F) :
  (forall m (s s' : Slider.Slider F) e,
     Slider.run m s = Raises e s' ->
     Slider.value s' = Slider.value s /\
     Slider.fired s' = Slider.fired s /\
     ((s' = s /\ e = ValueError /\
       exists k, m = Slider.SetTickCount (Some k) /\ k < 2) \/
      Slider._on_change s' = None)) /\
  (forall n (s : Slider.Slider F),
     n < 2 ->
     Slider.tick_count_set (Some n) s = Raises ValueError s) /\
  (forall v (i i' : IntSliderImpl.IntSliderImpl F) e,
     IntSliderImpl.set_value v i = Raises e i' -> i' = i).
Proof.
  split; [|split].
  - intros m s s' e Hr. destruct m as [v|v|v|n]; simpl in Hr.
    + apply SliderMore.value_set_raises in Hr. subst s'.
      repeat split. now right.
    + apply SliderMore.min_set_raises in Hr as (A1 & A2 & A3). auto.
    + apply SliderMore.max_set_raises in Hr as (A1 & A2 & A3). auto.
    + apply SliderMore.tick_count_set_raises
        in Hr as [(-> & -> & k & -> & Hk)|(A1 & A2 & A3)].
      * repeat split. left. repeat split. now exists k.
      * auto.
  - intros n s Hn. unfold Slider.tick_count_set, bind.
    apply Z.ltb_lt in Hn. now rewrite Hn.
  - intros v i i' e. apply SliderMore.impl_set_value_raises.
Qed.

Lemma failed_assignment_keeps_value_witness :
  Slider.value Examples.unit_nan_min = Slider.value Examples.unit_slider /\
  Slider.tick_count_set (Some 1) Examples.unit_slider
    = Raises ValueError Examples.unit_slider.
Proof.
  destruct (failed_assignment_keeps_value float Float64.binary64)
    as (A1 & A2 & _).
  split.
  - exact (proj1 (A1 (Slider.SetMin nan) Examples.unit_slider
                    Examples.unit_nan_min ValueError eq_refl)).
  - apply A2. reflexivity.
Defined.

(** X9: when the native widget reports that the user moved the slider to a
    position, and the backend's [on_change] returns, the installed handler
    has been called exactly once, whether or not the value changed; the
    value is then the one the native position stands for,
    [min + int_value / int_max * (max - min)], and the bounds and the tick
    count are as before.  If the callback raises, the value is unchanged
    and no handler is called. *)
Theorem user_move_always_notifies (F : Type) (A : PyFloat F) :
  (forall p (s s' : Slider.Slider F),
     Slider.user_moves p s = Returns tt s' ->
     Slider.fired s'
       = call_handler (Slider._on_change s) (Slider.fired s) /\
     IntSliderImpl.get_int_value (Slider._impl s') = p /\
     IntSliderImpl.native_value (Slider._impl s') = inr (Slider.value s') /\
     Slider.min s' = Slider.min s /\
     Slider.max s' = Slider.max s /\
     Slider.tick_count s' = Slider.tick_count s) /\
  (forall p (s s' : Slider.Slider F) e,
     Slider.user_moves p s = Raises e s' ->
     Slider.value s' = Slider.value s /\
     Slider.fired s' = Slider.fired s).
Proof.
  split.
  - intros p s s' Hr. unfold Slider.user_moves, Slider.impl_on_change in Hr.
    cbv [bind Slider.impl modify eval gets] in Hr.
    destruct (IntSliderImpl.native_value
                (Slider._impl
                   (Slider.with_impl
                      (IntSliderImpl.set_int_value p (Slider._impl s)) s)))
      as [e|v] eqn:Hv; [discriminate|].
    injection Hr as <-. repeat split. exact Hv.
  - intros p s s' e Hr. unfold Slider.user_moves, Slider.impl_on_change in Hr.
    cbv [bind Slider.impl modify eval gets] in Hr.
    destruct (IntSliderImpl.native_value
                (Slider._impl
                   (Slider.with_impl
                      (IntSliderImpl.set_int_value p (Slider._impl s)) s)))
      as [e1|v]; [|discriminate].
    injection Hr as _ <-. split; reflexivity.
Qed.

Lemma user_move_always_notifies_witness :
  Slider.fired Examples.unit_dragged = [1%nat] /\
  IntSliderImpl.native_value (Slider._impl Examples.unit_dragged)
    = inr 0.25%float.
Proof.
  destruct (proj1 (user_move_always_notifies float Float64.binary64)
              2500 Examples.unit_slider Examples.unit_dragged eq_refl)
    as (A1 & _ & A3 & _).
  split; [exact A1|exact A3].
Defined.

Module Float64Nan.

Import Slider Float64 SliderFacts Float64Facts.

Local Open Scope float_scope.

Lemma nan_of x : (x =? x) = false -> Prim2SF x = S754_nan.
Proof.
  intros Hx. destruct (Prim2SF x) eqn:Ex; try reflexivity.
  all: assert ((x =? x) = true) as Ht
         by (apply eqb_self; rewrite Ex; discriminate).
  all: rewrite Ht in Hx; discriminate.
Qed.

Lemma ltb_nan_l x y : Prim2SF x = S754_nan -> (x <? y) = false.
Proof. intros Hx. rewrite ltb_spec, Hx. reflexivity. Qed.

Lemma ltb_nan_r x y : Prim2SF y = S754_nan -> (x <? y) = false.
Proof.
  intros Hy. rewrite ltb_spec, Hy. now destruct (Prim2SF x) as [[]|[]| |[] ? ?].
Qed.

Lemma sub_nan_l x y : Prim2SF x = S754_nan -> Prim2SF (x - y) = S754_nan.
Proof. intros Hx. rewrite sub_spec, Hx. reflexivity. Qed.

Lemma div_nan_l x y : Prim2SF x = S754_nan -> Prim2SF (x / y) = S754_nan.
Proof. intros Hx. rewrite div_spec, Hx. reflexivity. Qed.

Lemma mul_nan_l x y : Prim2SF x = S754_nan -> Prim2SF (x * y) = S754_nan.
Proof. intros Hx. rewrite mul_spec, Hx. reflexivity. Qed.

Lemma round_nan x : Prim2SF x = S754_nan -> round x = inl ValueError.
Proof. intros Hx. unfold round. now rewrite Hx. Qed.

Lemma clip_nan (s : Slider float) v :
  Prim2SF v = S754_nan -> clip v s = v.
Proof.
  intros Hv. unfold clip, fgt. simpl.
  now rewrite (ltb_nan_l v _ Hv), (ltb_nan_r _ v Hv).
Qed.

(** Rounding a NaN to a tick gives a NaN, if anything. *)
Lemma round_value_nan (s : Slider float) v r :
  Prim2SF v = S754_nan -> _round_value v s = inr r -> r = v.
Proof.
  intros Hv. unfold _round_value.
  destruct (tick_step s) as [e|[step|]]; simpl; try discriminate.
  - unfold truediv. destruct (step =? 0); [discriminate|]. simpl.
    rewrite (round_nan _ (div_nan_l _ step (sub_nan_l v (min s) Hv))).
    discriminate.
  - now intros [= <-].
Qed.

(** A NaN has no native position unless the bounds coincide. *)
Lemma position_nan (i : IntSliderImpl.IntSliderImpl float) v :
  Prim2SF v = S754_nan ->
  (IntSliderImpl.max i - IntSliderImpl.min i =? 0) = false ->
  exists e, IntSliderImpl.position v i = inl e.
Proof.
  intros Hv Hs. unfold IntSliderImpl.position. simpl. rewrite Hs.
  unfold truediv. rewrite Hs. simpl.
  unfold mul_int. simpl.
  destruct (of_int _) as [e|d]; [now exists e|]. simpl.
  exists ValueError. apply round_nan, mul_nan_l, div_nan_l, sub_nan_l, Hv.
Qed.

Lemma value_set_nan (s : Slider float) v :
  (v =? v) = false ->
  (max s - min s =? 0) = false ->
  exists e,
    value_set v s = Raises e (store_on_change None s).
Proof.
  intros Hv Hs. apply nan_of in Hv.
  destruct (value_set v s) as [[] s'|e s'] eqn:Hr.
  - exfalso. apply value_set_returns in Hr as (r & p & Hr & Hp & _).
    rewrite (clip_nan s v Hv) in Hr.
    apply (round_value_nan s v r Hv) in Hr. subst r.
    destruct (position_nan (_impl s) v Hv Hs) as (e & He).
    rewrite He in Hp. discriminate.
  - exists e. f_equal.
    exact (SliderMore.value_set_raises v s s' e Hr).
Qed.

End Float64Nan.

(** X16: in binary64, assigning a NaN to [value] of a Slider whose span
    [max - min] is not zero raises: the NaN is not stored, the value and the
    bounds are the ones before, no handler is called (and the [on_change]
    handler is left uninstalled). *)
Theorem nan_is_not_stored (s : Slider.Slider float) (v : float) :
  feq v v = false ->
  feq (fsub (Slider.max s) (Slider.min s)) zero = false ->
  exists e s',
    Slider.value_set v s = Raises e s' /\
    Slider.value s' = Slider.value s /\
    Slider.min s' = Slider.min s /\ Slider.max s' = Slider.max s /\
    Slider.fired s' = Slider.fired s /\
    Slider._on_change s' = None.
Proof.
  intros Hv Hs.
  destruct (Float64Nan.value_set_nan s v Hv Hs) as (e & He).
  exists e, (Slider.store_on_change None s). repeat split. exact He.
Qed.

Lemma nan_is_not_stored_witness :
  exists e s',
    Slider.value_set nan Examples.unit_slider = Raises e s' /\
    Slider.value s' = 0.5%float /\
    Slider.min s' = 0%float /\ Slider.max s' = 1%float /\
    Slider.fired s' = [] /\
    Slider._on_change s' = None.
Proof.
  exact (nan_is_not_stored Examples.unit_slider nan eq_refl eq_refl).
Defined.

(** X14: in binary64, on a continuous Slider whose value lies between its
    bounds, assigning to a property what it already has ([value] its
    value, [min] its minimum, [max] its maximum, [tick_count] [None]) calls
    no handler and leaves the value equal to what it was, whether the
    assignment returns or raises. *)
Theorem reassigning_a_property_is_silent
    (s : Slider.Slider float) (m : Slider.mutation float) :
  Slider.tick_count s = None ->
  Slider.in_range s ->
  m = Slider.SetValue (Slider.value s) \/
  m = Slider.SetMin (Slider.min s) \/
  m = Slider.SetMax (Slider.max s) \/
  m = Slider.SetTickCount None ->
  Slider.fired (final (Slider.run m s)) = Slider.fired s /\
  feq (Slider.value (final (Slider.run m s))) (Slider.value s) = true.
Proof. apply SliderFloatSame.reassigned. Qed.

Lemma reassigning_a_property_is_silent_witness :
  Slider.fired (final (Slider.min_set 0%float Examples.unit_slider)) = [] /\
  feq (Slider.value (final (Slider.min_set 0%float Examples.unit_slider)))
      0.5%float = true.
Proof.
  refine (reassigning_a_property_is_silent Examples.unit_slider
            (Slider.SetMin 0%float) eq_refl _
            (or_intror (or_introl eq_refl))).
  split; reflexivity.
Defined.

(** X17: every DateInput an application can hold (constructed, and after
    any assignments to [value], [min], [max] and [on_change], whether they
    returned or raised) has [min <= value <= max]. *)
Theorem date_value_stays_between_bounds (w : DateInput.DateInput) :
  DateInput.reachable w -> DateInput.in_range w.
Proof. apply DateInputFacts.reachable_in_range. Qed.

Lemma date_value_stays_between_bounds_witness :
  DateInput.in_range Examples.year1999.
Proof.
  apply date_value_stays_between_bounds.
  apply (DateInput.reach_init Examples.date_impl0 Examples.today0
           (DateInput.PyStr "2050-01-01") (DateInput.PyStr "1999-01-01")
           (DateInput.PyStr "1999-12-31") (Some 1%nat)).
  reflexivity.
Defined.

(** X18: in binary64, an assignment to [value], [min], [max] or
    [tick_count] of a Slider that returns leaves [min <= value <= max] when
    the slider is then continuous and the assigned number is not a NaN,
    from any state with ordered bounds and a value that is not a NaN; so
    does the construction of a continuous Slider from numbers. *)
Theorem continuous_slider_stays_in_range :
  (forall (m : Slider.mutation float) (s s' : Slider.Slider float),
     fle (Slider.min s) (Slider.max s) = true ->
     feq (Slider.value s) (Slider.value s) = true ->
     match m with
     | Slider.SetValue v | Slider.SetMin v | Slider.SetMax v =>
         feq v v = true
     | Slider.SetTickCount _ => True
     end ->
     Slider.run m s = Returns tt s' ->
     Slider.tick_count s' = None ->
     Slider.in_range s') /\
  (forall value min max on_change on_press on_release enabled native0
          (s : Slider.Slider float),
     feq min min = true -> feq max max = true ->
     match value with
     | Some v => feq v v = true
     | None => forall v, truediv_int (fadd min max) 2 = inr v ->
                         feq v v = true
     end ->
     Slider.__init__ value min max None on_change on_press on_release
       enabled (Slider.created native0) = Returns tt s ->
     Slider.in_range s).
Proof.
  split.
  - intros m s s' Hord Hv Hm Hr Hn.
    exact (proj1 (SliderFloat.continuous_step m s s' Hord Hv Hm Hr Hn)).
  - intros value min max on_change on_press on_release enabled native0 s.
    apply SliderFloat.continuous_init.
Qed.

Lemma continuous_slider_stays_in_range_witness :
  Slider.in_range Examples.unit_quarter /\
  Slider.in_range Examples.unit_slider.
Proof.
  destruct continuous_slider_stays_in_range as (A & B).
  split.
  - apply (A (Slider.SetMax 0.25%float) Examples.unit_slider); reflexivity.
  - apply (B None 0%float 1%float (Some 1%nat) None None true
             Examples.native0); try reflexivity.
    intros v [= <-]. reflexivity.
Defined.

(** X19: an assignment to [value], [min], [max] or [tick_count] of a Slider
    that returns leaves the [on_change] handler that was installed
    installed, and has called it exactly once if the value read after the
    assignment is not ([!=]) the value read before it, and not at all if it
    is; an assignment that raises has called no handler.  The same holds
    of the scope of a programmatic change around any sequence of backend
    calls and of change events of the native widget: the events inside the
    scope reach no handler. *)
Theorem scope_notifies_once_and_restores (F : Type) (A : PyFloat F) :
  (forall (m : Slider.mutation F) (s : Slider.Slider F),
     match Slider.run m s with
     | Returns _ s' =>
         Slider._on_change s' = Slider._on_change s /\
         Slider.fired s'
         = (if fne (Slider.value s') (Slider.value s)
            then call_handler (Slider._on_change s) (Slider.fired s)
            else Slider.fired s)
     | Raises _ s' => Slider.fired s' = Slider.fired s
     end) /\
  (forall (events : list (Slider.backend_event F)) (s : Slider.Slider F),
     match Slider._programmatic_change
             (fun _ => Slider.perform events) s with
     | Returns _ s' =>
         Slider._on_change s' = Slider._on_change s /\
         Slider.fired s'
         = (if fne (Slider.value s') (Slider.value s)
            then call_handler (Slider._on_change s) (Slider.fired s)
            else Slider.fired s)
     | Raises _ s' =>
         Slider.fired s' = Slider.fired s /\ Slider._on_change s' = None
     end).
Proof.
  split.
  - exact SliderFacts.run_outcome.
  - intros events s. apply SliderFacts.scope_outcome.
    intros _. apply SliderFacts.quiet_perform.
Qed.

Lemma scope_notifies_once_and_restores_witness :
  Slider._on_change Examples.tick3_max = Some 1%nat /\
  Slider.fired Examples.tick3_max = [1%nat] /\
  (let s' := final (Slider._programmatic_change
                      (fun _ => Slider.perform
                         [Slider.Native_change 2500;
                          Slider.Backend_set_value 0.25%float;
                          Slider.Native_change 2500])
                      Examples.unit_slider) in
   Slider._on_change s' = Some 1%nat /\ Slider.fired s' = [1%nat]).
Proof.
  destruct (scope_notifies_once_and_restores float Float64.binary64)
    as (A & B).
  split; [|split].
  - exact (proj1 (A (Slider.SetValue 8%float) Examples.tick3)).
  - exact (proj2 (A (Slider.SetValue 8%float) Examples.tick3)).
  - exact (B [Slider.Native_change 2500;
              Slider.Backend_set_value 0.25%float;
              Slider.Native_change 2500] Examples.unit_slider).
Defined.
